(** * erb-client: the wallet's role signatures and the pointer-returning queries

    A shallow embedding of [client/worm_client.go]: the [Wallet] signing
    operations ([Sign], [SignBuyer], [SignSeller1], [SignSeller2],
    [SignExchanger], [SignDelegate]), the constructor [NewClient] and the
    queries [TransactionReceipt], [GetValidators], [GetAccountInfo] and
    [GetBlockBeneficiaryAddressByNumber].

    Go values are modelled as the code has them:
    - a [string] is a byte string ([String.string]); [[]byte] is [list byte],
      a nil slice is [None];
    - a [(T, error)] result is a pair [option T * option error] where [None]
      is Go's [nil] on either side;
    - a call either returns, panics (index out of range, nil receiver) or
      ends the process ([log.Fatalf]);
    - go-ethereum's [crypto], [rpc] and [common], the standard library's
      [encoding/json] and the repository's [tools.SignHash] are external
      to the file under study; they are the fields of the class
      [Externals], and every call made to them is recorded in the world's
      call log. *)

From Stdlib Require Import List Bool NArith ZArith Lia.
From Stdlib.Strings Require Import Ascii Byte String.
From Stdlib Require HexadecimalString HexadecimalPos DecimalString DecimalN.
Import ListNotations.

Set Implicit Arguments.

(** ** Go data *)

Definition bytes := list byte.

(** [common.Hash], [common.Address]: fixed-size byte arrays. *)
Definition common_Hash := bytes.
Definition common_Address := bytes.

(** [*big.Int]; [None] is the nil pointer. *)
Definition bigInt := option Z.

(** [uint8] addition wraps around at 256. *)
Definition uint8_add (b : byte) (n : N) : byte :=
  match Byte.of_N ((Byte.to_N b + n) mod 256) with
  | Some r => r
  | None => b
  end.

(** [s[i] += n] on a byte slice; [None] when [i] is out of range, where Go
    panics. *)
Fixpoint index_add (s : bytes) (i : nat) (n : N) : option bytes :=
  match s, i with
  | [], _ => None
  | b :: r, O => Some (uint8_add b n :: r)
  | b :: r, S j => option_map (cons b) (index_add r j n)
  end.

(** *** [hexutil.Encode]: [0x] followed by two lower-case hex digits a byte *)

Definition hexdigit (n : N) : ascii :=
  nth (N.to_nat n)
      (list_ascii_of_string "0123456789abcdef") "0"%char.

Fixpoint hex_EncodeToString (b : bytes) : string :=
  match b with
  | [] => EmptyString
  | x :: r =>
      String (hexdigit (Byte.to_N x / 16))
        (String (hexdigit (Byte.to_N x mod 16)) (hex_EncodeToString r))
  end.

Definition hexutil_Encode (b : bytes) : string :=
  ("0x" ++ hex_EncodeToString b)%string.

(** ** package types *)

Module Buyer.
Record t := mk
  { Amount : string; NFTAddress : string; Exchanger : string;
    BlockNumber : string; Seller : string; Sig : string }.
End Buyer.

Module Seller1.
Record t := mk
  { Amount : string; NFTAddress : string; Exchanger : string;
    BlockNumber : string; Sig : string }.
End Seller1.

Module Seller2.
Record t := mk
  { Amount : string; Royalty : string; MetaURL : string;
    ExclusiveFlag : string; Exchanger : string; BlockNumber : string;
    Sig : string }.
End Seller2.

Module ExchangerAuth.
Record t := mk
  { ExchangerOwner : string; To : string; BlockNumber : string;
    Sig : string }.
End ExchangerAuth.

Module Validator.
Record t := mk
  { Addr : common_Address; Balance : bigInt; Proxy : common_Address;
    Weight : list bigInt }.
End Validator.

Module ValidatorList.
Record t := mk { Validators : list (option Validator.t) }.
End ValidatorList.

Module BeneficiaryAddress.
Record t := mk { Address : common_Address; NftAddress : common_Address }.
End BeneficiaryAddress.

Definition BeneficiaryAddressList := list (option BeneficiaryAddress.t).

Module StakerExtension.
Record t := mk { Addr : common_Address; Balance : bigInt; BlockNumber : bigInt }.
End StakerExtension.

Module StakersExtensionList.
Record t := mk { StakerExtensions : list (option StakerExtension.t) }.
End StakersExtensionList.

Module WormholesExtension.
Record t := mk
  { PledgedBalance : bigInt; PledgedBlockNumber : bigInt;
    ExchangerFlag : bool; BlockNumber : bigInt; ExchangerBalance : bigInt;
    SNFTAgentRecipient : common_Address; VoteBlockNumber : bigInt;
    VoteWeight : bigInt; Coefficient : N; FeeRate : N;
    ExchangerName : string; ExchangerURL : string;
    ApproveAddressList : list common_Address; SNFTNoMerge : bool;
    LockSNFTFlag : bool; NFTBalance : N;
    StakerExtension : StakersExtensionList.t }.
End WormholesExtension.

Module AccountNFT.
Record t := mk
  { Name : string; Symbol : string; Price : bigInt; Direction : N;
    Owner : common_Address; NFTApproveAddressList : common_Address; MergeLevel : N;
    Creator : common_Address; Royalty : N; Exchanger : common_Address;
    MetaURL : string }.
End AccountNFT.

Module Account.
Record t := mk
  { Nonce : N; Balance : bigInt; Root : common_Hash; CodeHash : option bytes;
    Worm : option WormholesExtension.t; Nft : AccountNFT.t }.
End Account.

(** The value handed to [json.Marshal] (its parameter is [interface{}]). *)
Inductive any : Type :=
| AnyBuyer (v : Buyer.t)
| AnySeller1 (v : Seller1.t)
| AnySeller2 (v : Seller2.t)
| AnyExchangerAuth (v : ExchangerAuth.t).

(** ** The RPC surface *)

(** The arguments the queries pass to [CallContext]. *)
Inductive rpcArg : Type :=
| ArgHash (h : common_Hash)
| ArgAddress (a : common_Address)
| ArgBlockNumber (n : Z)
| ArgBlockNumberOrHash (n : Z)
| ArgBool (b : bool).

(** The type the reply is decoded into: the pointee of the [&r] handed to
    [CallContext]. *)
Inductive rkind : Type :=
| KReceipt | KValidatorList | KAccount | KBeneficiaryAddressList.

Definition rtype (Receipt : Type) (k : rkind) : Type :=
  match k with
  | KReceipt => Receipt
  | KValidatorList => ValidatorList.t
  | KAccount => Account.t
  | KBeneficiaryAddressList => BeneficiaryAddressList
  end.

(** ** What the file imports

    [HexToECDSA] and [crypto_Sign] are go-ethereum's ([crypto.Sign] signs
    with the RFC 6979 nonce, so it is a function of digest and key);
    [SignHash] is the repository's [tools.SignHash];
    [json_Marshal] is [encoding/json]'s; [NotFound] is the sentinel
    [ethereum.NotFound]; [rpc_Dial] and [CallContext] talk to the node,
    whose state is [Node]. *)
Class Externals : Type :=
  { error : Type;
    PrivateKey : Type;
    Receipt : Type;
    Client : Type;
    Node : Type;
    HexToECDSA : string -> option PrivateKey * option error;
    crypto_Sign : bytes -> option PrivateKey -> option bytes * option error;
    SignHash : bytes -> bytes;
    json_Marshal : any -> option bytes * option error;
    NotFound : error;
    HexToHash : string -> common_Hash;
    HexToAddress : string -> common_Address;
    rpc_Dial : string -> Node -> (option Client * option error) * Node;
    CallContext :
      forall k : rkind, Client -> string -> list rpcArg -> Node ->
                        (option (rtype Receipt k) * option error) * Node }.

(** ** Outcomes, the world and its monad *)

Inductive outcome (A : Type) : Type :=
| Returns (a : A)
| Panics
| Exits.

Arguments Panics {A}.
Arguments Exits {A}.

Section Client.

Context {E : Externals}.

(** A call to an imported function, as recorded in the log. *)
Inductive Call : Type :=
| CallHexToECDSA (hexkey : string)
| CallSignHash (data : bytes)
| CallSign (digestHash : bytes) (prv : option PrivateKey)
| CallMarshal (v : any)
| CallDial (rawurl : string)
| CallRpc (k : rkind) (method : string) (args : list rpcArg).

Record World : Type := mkWorld { node : Node; calls : list Call }.

Definition M (A : Type) : Type := World -> outcome A * World.

Definition ret {A} (a : A) : M A := fun w => (Returns a, w).

Definition bind {A B} (m : M A) (k : A -> M B) : M B :=
  fun w =>
    match m w with
    | (Returns a, w1) => k a w1
    | (Panics, w1) => (Panics, w1)
    | (Exits, w1) => (Exits, w1)
    end.

Definition panic {A} : M A := fun w => (Panics, w).

(** [log.Fatalf]: the process ends. *)
Definition log_Fatalf {A} : M A := fun w => (Exits, w).

Definition record (c : Call) : M unit :=
  fun w => (Returns tt, mkWorld (node w) (calls w ++ [c])).

End Client.

Notation "x <- m ;; k" := (bind m (fun x => k))
  (at level 61, m at next level, right associativity).
Notation "' pat <- m ;; k" := (bind m (fun x => match x with pat => k end))
  (at level 61, pat pattern, m at next level, right associativity).
Notation "m ;;; k" := (bind m (fun _ => k))
  (at level 61, right associativity).

(** ** client/worm_client.go *)

Record Wallet : Type := mkWallet { priKey : string }.

(** [Wormholes] embeds a [Wallet] and holds the connection [c], nil for a
    wallet-only client. *)
Record Wormholes {E : Externals} : Type :=
  mkWormholes { wallet : Wallet; c : option Client }.

Arguments mkWormholes {E} wallet c.

Section Program.

Context {E : Externals}.

(** *** Calls to the imported functions, each recorded in the log *)

Definition crypto_HexToECDSA (hexkey : string)
  : M (option PrivateKey * option error) :=
  record (CallHexToECDSA hexkey) ;;; ret (HexToECDSA hexkey).

Definition tools_SignHash (data : bytes) : M bytes :=
  record (CallSignHash data) ;;; ret (SignHash data).

Definition crypto_Sign_ (digestHash : bytes) (prv : option PrivateKey)
  : M (option bytes * option error) :=
  record (CallSign digestHash prv) ;;; ret (crypto_Sign digestHash prv).

Definition json_Marshal_ (v : any) : M (option bytes * option error) :=
  record (CallMarshal v) ;;; ret (json_Marshal v).

Definition rpc_Dial_ (rawurl : string) : M (option Client * option error) :=
  record (CallDial rawurl) ;;;
  fun w => let '(r, n) := rpc_Dial rawurl (node w) in
           (Returns r, mkWorld n (calls w)).

(** [worm.c.CallContext(ctx, &r, method, args...)]: a nil [worm.c] is a nil
    pointer dereference. *)
Definition c_CallContext (k : rkind) (cl : option Client) (method : string)
    (args : list rpcArg) : M (option (rtype Receipt k) * option error) :=
  match cl with
  | None => panic
  | Some cl =>
      record (CallRpc k method args) ;;;
      fun w => let '(r, n) := CallContext k cl method args (node w) in
               (Returns r, mkWorld n (calls w))
  end.

(** [signature[64] += 27]; a nil or short slice panics. *)
Definition signature_64_add_27 (signature : option bytes) : M bytes :=
  match signature with
  | None => panic
  | Some s =>
      match index_add s 64 27 with
      | Some s' => ret s'
      | None => panic
      end
  end.

(** *** NewClient *)

Definition NewClient (priKey rawurl : string) : M Wormholes :=
  if (rawurl =? EmptyString)%string then
    ret (mkWormholes (mkWallet priKey) None)
  else
    '(client, err) <- rpc_Dial_ rawurl ;;
    match err with
    | Some _ => log_Fatalf
    | None => ret (mkWormholes (mkWallet priKey) client)
    end.

(** *** The pointer-returning queries *)

Definition TransactionReceipt (worm : Wormholes) (txHash : string)
  : M (option Receipt * option error) :=
  let txHashs := HexToHash txHash in
  '(r, err) <- c_CallContext KReceipt (c worm) "eth_getTransactionReceipt"
                 [ArgHash txHashs] ;;
  match err, r with
  | None, None => ret (None, Some NotFound)
  | _, _ => ret (r, err)
  end.

Definition GetValidators (worm : Wormholes) (blockNumber : Z)
  : M (option ValidatorList.t * option error) :=
  let blockNrOrHash := ArgBlockNumber blockNumber in
  '(r, err) <- c_CallContext KValidatorList (c worm) "eth_getValidator"
                 [blockNrOrHash] ;;
  match err, r with
  | None, None => ret (None, Some NotFound)
  | _, _ => ret (r, err)
  end.

Definition GetAccountInfo (worm : Wormholes) (address : string) (block : Z)
  : M (option Account.t * option error) :=
  let addresss := HexToAddress address in
  let blockNrOrHash := ArgBlockNumberOrHash block in
  '(r, err) <- c_CallContext KAccount (c worm) "eth_getAccountInfo"
                 [ArgAddress addresss; blockNrOrHash] ;;
  match err, r with
  | None, None => ret (None, Some NotFound)
  | _, _ => ret (r, err)
  end.

Definition GetBlockBeneficiaryAddressByNumber (worm : Wormholes) (block : Z)
  : M (option BeneficiaryAddressList * option error) :=
  let blockNumber := ArgBlockNumber block in
  '(r, err) <- c_CallContext KBeneficiaryAddressList (c worm)
                 "eth_getBlockBeneficiaryAddressByNumber"
                 [blockNumber; ArgBool true] ;;
  match err, r with
  | None, None => ret (None, Some NotFound)
  | _, _ => ret (r, err)
  end.

(** *** The wallet's signing operations *)

Definition Sign (w : Wallet) (data : bytes) (priKey : string)
  : M (option bytes * option error) :=
  '(key, err) <- crypto_HexToECDSA priKey ;;
  match err with
  | Some _ => ret (None, err)
  | None =>
      digest <- tools_SignHash data ;;
      '(signature, err) <- crypto_Sign_ digest key ;;
      match err with
      | Some _ => ret (None, err)
      | None =>
          signature <- signature_64_add_27 signature ;;
          ret (Some signature, None)
      end
  end.

Definition SignBuyer (w : Wallet)
    (amount nftAddress exchanger blockNumber seller : string)
  : M (option bytes * option error) :=
  '(key, err) <- crypto_HexToECDSA (priKey w) ;;
  match err with
  | Some _ => ret (None, err)
  | None =>
      let msg :=
        (amount ++ nftAddress ++ exchanger ++ blockNumber ++ seller)%string in
      digest <- tools_SignHash (list_byte_of_string msg) ;;
      '(signature, err) <- crypto_Sign_ digest key ;;
      match err with
      | Some _ => ret (None, err)
      | None =>
          signature <- signature_64_add_27 signature ;;
          let buyer :=
            Buyer.mk amount nftAddress exchanger blockNumber seller
                     (hexutil_Encode signature) in
          '(result, err) <- json_Marshal_ (AnyBuyer buyer) ;;
          match err with
          | Some _ => ret (None, err)
          | None => ret (result, None)
          end
      end
  end.

Definition SignSeller1 (w : Wallet)
    (amount nftAddress exchanger blockNumber : string)
  : M (option bytes * option error) :=
  '(key, err) <- crypto_HexToECDSA (priKey w) ;;
  match err with
  | Some _ => ret (None, err)
  | None =>
      let msg := (amount ++ nftAddress ++ exchanger ++ blockNumber)%string in
      digest <- tools_SignHash (list_byte_of_string msg) ;;
      '(signature, err) <- crypto_Sign_ digest key ;;
      match err with
      | Some _ => ret (None, err)
      | None =>
          signature <- signature_64_add_27 signature ;;
          let seller1 :=
            Seller1.mk amount nftAddress exchanger blockNumber
                       (hexutil_Encode signature) in
          '(result, err) <- json_Marshal_ (AnySeller1 seller1) ;;
          match err with
          | Some _ => ret (None, err)
          | None => ret (result, None)
          end
      end
  end.

Definition SignSeller2 (w : Wallet)
    (amount royalty metaURL exclusiveFlag exchanger blockNumber : string)
  : M (option bytes * option error) :=
  '(key, err) <- crypto_HexToECDSA (priKey w) ;;
  match err with
  | Some _ => ret (None, err)
  | None =>
      let msg :=
        (amount ++ royalty ++ metaURL ++ exclusiveFlag ++ exchanger
           ++ blockNumber)%string in
      digest <- tools_SignHash (list_byte_of_string msg) ;;
      '(signature, err) <- crypto_Sign_ digest key ;;
      match err with
      | Some _ => ret (None, err)
      | None =>
          signature <- signature_64_add_27 signature ;;
          let seller2 :=
            Seller2.mk amount royalty metaURL exclusiveFlag exchanger
                       blockNumber (hexutil_Encode signature) in
          '(result, err) <- json_Marshal_ (AnySeller2 seller2) ;;
          match err with
          | Some _ => ret (None, err)
          | None => ret (result, None)
          end
      end
  end.

Definition SignExchanger (w : Wallet) (exchangerOwner to blockNumber : string)
  : M (option bytes * option error) :=
  '(key, err) <- crypto_HexToECDSA (priKey w) ;;
  match err with
  | Some _ => ret (None, err)
  | None =>
      let msg := (exchangerOwner ++ to ++ blockNumber)%string in
      digest <- tools_SignHash (list_byte_of_string msg) ;;
      '(signature, err) <- crypto_Sign_ digest key ;;
      match err with
      | Some _ => ret (None, err)
      | None =>
          signature <- signature_64_add_27 signature ;;
          let exchangeAuth :=
            ExchangerAuth.mk exchangerOwner to blockNumber
                             (hexutil_Encode signature) in
          '(result, err) <- json_Marshal_ (AnyExchangerAuth exchangeAuth) ;;
          match err with
          | Some _ => ret (None, err)
          | None => ret (result, None)
          end
      end
  end.

Definition SignDelegate (w : Wallet) (address pledgeAcoount : string)
  : M (option bytes * option error) :=
  '(key, err) <- crypto_HexToECDSA (priKey w) ;;
  match err with
  | Some _ => ret (None, err)
  | None =>
      let msg := (address ++ pledgeAcoount)%string in
      digest <- tools_SignHash (list_byte_of_string msg) ;;
      '(signature, err) <- crypto_Sign_ digest key ;;
      match err with
      | Some _ => ret (None, err)
      | None =>
          signature <- signature_64_add_27 signature ;;
          ret (Some (list_byte_of_string (hexutil_Encode signature)), None)
      end
  end.

End Program.

(** ** Requests, roles and what a run leaves in the log *)

(** A call to one of the five role-signing operations, with its field
    strings in the order of the operation's parameter list. *)
Inductive SignRequest : Type :=
| ReqBuyer (amount nftAddress exchanger blockNumber seller : string)
| ReqSeller1 (amount nftAddress exchanger blockNumber : string)
| ReqSeller2
    (amount royalty metaURL exclusiveFlag exchanger blockNumber : string)
| ReqExchanger (exchangerOwner to blockNumber : string)
| ReqDelegate (address pledgeAcoount : string).

Inductive Role : Type := Buyer | Seller1 | Seller2 | Exchanger | Delegate.

Definition role (r : SignRequest) : Role :=
  match r with
  | ReqBuyer _ _ _ _ _ => Buyer
  | ReqSeller1 _ _ _ _ => Seller1
  | ReqSeller2 _ _ _ _ _ _ => Seller2
  | ReqExchanger _ _ _ => Exchanger
  | ReqDelegate _ _ => Delegate
  end.

(** The declared fields of a request, in declared order. *)
Definition fields (r : SignRequest) : list string :=
  match r with
  | ReqBuyer amount nftAddress exchanger blockNumber seller =>
      [amount; nftAddress; exchanger; blockNumber; seller]
  | ReqSeller1 amount nftAddress exchanger blockNumber =>
      [amount; nftAddress; exchanger; blockNumber]
  | ReqSeller2 amount royalty metaURL exclusiveFlag exchanger blockNumber =>
      [amount; royalty; metaURL; exclusiveFlag; exchanger; blockNumber]
  | ReqExchanger exchangerOwner to blockNumber =>
      [exchangerOwner; to; blockNumber]
  | ReqDelegate address pledgeAcoount => [address; pledgeAcoount]
  end.

(** The struct a role hands to [json.Marshal], given the text of its
    signature; the delegate role has none. *)
Definition authorization (r : SignRequest) (sig : string) : option any :=
  match r with
  | ReqBuyer amount nftAddress exchanger blockNumber seller =>
      Some (AnyBuyer
              (Buyer.mk amount nftAddress exchanger blockNumber seller sig))
  | ReqSeller1 amount nftAddress exchanger blockNumber =>
      Some (AnySeller1
              (Seller1.mk amount nftAddress exchanger blockNumber sig))
  | ReqSeller2 amount royalty metaURL exclusiveFlag exchanger blockNumber =>
      Some (AnySeller2
              (Seller2.mk amount royalty metaURL exclusiveFlag exchanger
                          blockNumber sig))
  | ReqExchanger exchangerOwner to blockNumber =>
      Some (AnyExchangerAuth
              (ExchangerAuth.mk exchangerOwner to blockNumber sig))
  | ReqDelegate _ _ => None
  end.

(** The (Go field name, value) entries of a marshalled struct. *)
Definition entries (v : any) : list (string * string) :=
  match v with
  | AnyBuyer b =>
      [("Amount", Buyer.Amount b); ("NFTAddress", Buyer.NFTAddress b);
       ("Exchanger", Buyer.Exchanger b);
       ("BlockNumber", Buyer.BlockNumber b); ("Seller", Buyer.Seller b);
       ("Sig", Buyer.Sig b)]
  | AnySeller1 b =>
      [("Amount", Seller1.Amount b); ("NFTAddress", Seller1.NFTAddress b);
       ("Exchanger", Seller1.Exchanger b);
       ("BlockNumber", Seller1.BlockNumber b); ("Sig", Seller1.Sig b)]
  | AnySeller2 b =>
      [("Amount", Seller2.Amount b); ("Royalty", Seller2.Royalty b);
       ("MetaURL", Seller2.MetaURL b);
       ("ExclusiveFlag", Seller2.ExclusiveFlag b);
       ("Exchanger", Seller2.Exchanger b);
       ("BlockNumber", Seller2.BlockNumber b); ("Sig", Seller2.Sig b)]
  | AnyExchangerAuth b =>
      [("ExchangerOwner", ExchangerAuth.ExchangerOwner b);
       ("To", ExchangerAuth.To b);
       ("BlockNumber", ExchangerAuth.BlockNumber b);
       ("Sig", ExchangerAuth.Sig b)]
  end%string.

Section Observations.

Context {E : Externals}.

Definition sign (w : Wallet) (r : SignRequest)
  : M (option bytes * option error) :=
  match r with
  | ReqBuyer amount nftAddress exchanger blockNumber seller =>
      SignBuyer w amount nftAddress exchanger blockNumber seller
  | ReqSeller1 amount nftAddress exchanger blockNumber =>
      SignSeller1 w amount nftAddress exchanger blockNumber
  | ReqSeller2 amount royalty metaURL exclusiveFlag exchanger blockNumber =>
      SignSeller2 w amount royalty metaURL exclusiveFlag exchanger blockNumber
  | ReqExchanger exchangerOwner to blockNumber =>
      SignExchanger w exchangerOwner to blockNumber
  | ReqDelegate address pledgeAcoount =>
      SignDelegate w address pledgeAcoount
  end.

(** The calls a run adds to the log, and what it returns. *)
Definition trace {A} (m : M A) (s : World) : list Call :=
  skipn (List.length (calls s)) (calls (snd (m s))).

Definition result {A} (m : M A) (s : World) : outcome A := fst (m s).

(** The byte strings handed to [tools.SignHash], the digests handed to
    [crypto.Sign], the structs handed to [json.Marshal], the calls that
    reach the node. *)
Definition hashed (cs : list Call) : list bytes :=
  flat_map (fun x => match x with CallSignHash d => [d] | _ => [] end) cs.

Definition signed (cs : list Call) : list bytes :=
  flat_map (fun x => match x with CallSign d _ => [d] | _ => [] end) cs.

Definition marshalled (cs : list Call) : list any :=
  flat_map (fun x => match x with CallMarshal v => [v] | _ => [] end) cs.

Definition remote (cs : list Call) : list Call :=
  filter (fun x => match x with
                   | CallDial _ | CallRpc _ _ _ => true
                   | _ => false
                   end) cs.

(** Whether [crypto.HexToECDSA] accepts a key string. *)
Definition key_ok (hexkey : string) : bool :=
  match snd (HexToECDSA hexkey) with
  | None => true
  | Some _ => false
  end.

(** The signable message of a request: its fields, concatenated. *)
Definition message (r : SignRequest) : bytes :=
  list_byte_of_string (String.concat EmptyString (fields r)).

(** [crypto.Sign]'s contract on [(digest, key)]: on success the signature
    is 65 bytes [R || S || V] with [V] 0 or 1. *)
Definition sign_contract (digestHash : bytes) (prv : option PrivateKey)
  : Prop :=
  forall sg, crypto_Sign digestHash prv = (sg, None) ->
    exists rs v, sg = Some (rs ++ [v]) /\ List.length rs = 64 /\
                 (v = x00 \/ v = x01).

(** *** Shapes used in the statements *)

(** Two field lists that differ in exactly one position. *)
Definition one_field_mutated (l l' : list string) : Prop :=
  exists front x x' back,
    l = front ++ x :: back /\ l' = front ++ x' :: back /\ x <> x'.

(** [sig] is [raw] with 27 added to the byte at index 64 and nothing else
    changed; the sum is exact when that byte is a recovery id 0 or 1. *)
Definition recovery_plus_27 (raw sig : bytes) : Prop :=
  List.length sig = List.length raw /\
  (forall i : nat, i <> 64%nat -> nth_error sig i = nth_error raw i) /\
  exists v v' : byte,
    nth_error raw 64 = Some v /\ nth_error sig 64 = Some v' /\
    Byte.to_N v' = ((Byte.to_N v + 27) mod 256)%N /\
    ((Byte.to_N v <= 1)%N ->
     Byte.to_N v' = (Byte.to_N v + 27)%N /\
     (Byte.to_N v' = 27 \/ Byte.to_N v' = 28)%N).

(** How a role's run carries the signature [sig]: inside the struct handed
    to [json.Marshal], whose output is returned, or, for the one role
    without a struct, as the text of the signature itself. *)
Definition carries (r : SignRequest) (o : option bytes) (cs : list Call)
    (sig : bytes) : Prop :=
  match authorization r (hexutil_Encode sig) with
  | Some v => marshalled cs = [v] /\ json_Marshal v = (o, None)
  | None =>
      marshalled cs = [] /\
      o = Some (list_byte_of_string (hexutil_Encode sig))
  end.

(** What every one of the four queries does with the reply. *)
Definition not_found_if_null {A} (reply : option A * option error)
  : option A * option error :=
  match reply with
  | (None, None) => (None, Some NotFound)
  | _ => reply
  end.

(** *** A signing run, summarised

    The six signing operations share their first steps.  [signing_run]
    gives a run as its outcome and the calls it adds to the log. *)

Definition finish_role (v : any)
  : outcome (option bytes * option error) * list Call :=
  (Returns match json_Marshal v with
           | (_, Some e) => (None, Some e)
           | (res, None) => (res, None)
           end,
   [CallMarshal v]).

Definition finish (r : SignRequest) (sig : bytes)
  : outcome (option bytes * option error) * list Call :=
  match authorization r (hexutil_Encode sig) with
  | Some v => finish_role v
  | None =>
      (Returns (Some (list_byte_of_string (hexutil_Encode sig)), None), [])
  end.

Definition finish_Sign (sig : bytes)
  : outcome (option bytes * option error) * list Call :=
  (Returns (Some sig, None), []).

Definition signing_run (hexkey : string) (msg : bytes)
    (fin : bytes -> outcome (option bytes * option error) * list Call)
  : outcome (option bytes * option error) * list Call :=
  match HexToECDSA hexkey with
  | (_, Some e) => (Returns (None, Some e), [CallHexToECDSA hexkey])
  | (key, None) =>
      let digest := SignHash msg in
      let pre :=
        [CallHexToECDSA hexkey; CallSignHash msg; CallSign digest key] in
      match crypto_Sign digest key with
      | (_, Some e) => (Returns (None, Some e), pre)
      | (sg, None) =>
          match match sg with
                | Some raw => index_add raw 64 27
                | None => None
                end with
          | None => (Panics, pre)
          | Some sig => (fst (fin sig), pre ++ snd (fin sig))
          end
      end
  end.

End Observations.

(** The Go field names of a role's struct, without its signature field. *)
Definition declared_names (k : Role) : list string :=
  match k with
  | Buyer => ["Amount"; "NFTAddress"; "Exchanger"; "BlockNumber"; "Seller"]
  | Seller1 => ["Amount"; "NFTAddress"; "Exchanger"; "BlockNumber"]
  | Seller2 =>
      ["Amount"; "Royalty"; "MetaURL"; "ExclusiveFlag"; "Exchanger";
       "BlockNumber"]
  | Exchanger => ["ExchangerOwner"; "To"; "BlockNumber"]
  | Delegate => []
  end%string.

(** A nil result together with a nil error. *)
Definition nil_nil {A Err : Type} (o : outcome (option A * option Err))
  : bool :=
  match o with
  | Returns (None, None) => true
  | _ => false
  end.

(** ** A reference instance of the imported functions

    Stand-ins that compute, for running the program on concrete inputs:
    a key is 64 hex digits; the digest is the first 32 bytes of the
    zero-padded message; a signature is the digest, the key's first 32
    bytes and the parity of the digest's first byte; the encoder writes
    the Go field names as keys; the node knows the hashes of the mined
    transactions and nothing else. *)
Module Demo.

Definition is_hex (a : ascii) : bool :=
  existsb (Ascii.eqb a) (list_ascii_of_string "0123456789abcdefABCDEF").

Definition parse_key (hexkey : string) : option bytes * option string :=
  if (String.length hexkey =? 64)%nat
     && forallb is_hex (list_ascii_of_string hexkey)
  then (Some (list_byte_of_string hexkey), None)
  else (None, Some "invalid length, need 256 bits"%string).

Definition pad32 (b : bytes) : bytes := firstn 32 (b ++ repeat x00 32).

Definition digest32 (data : bytes) : bytes := pad32 data.

Definition sign_det (digestHash : bytes) (prv : option bytes)
  : option bytes * option string :=
  match prv with
  | None => (None, Some "nil private key"%string)
  | Some k =>
      if (List.length digestHash =? 32)%nat then
        (Some (digestHash ++ pad32 k
                 ++ [if N.odd (Byte.to_N (hd x00 digestHash))
                     then x01 else x00]),
         None)
      else (None, Some "hash is required to be exactly 32 bytes"%string)
  end.

Definition quoted (s : string) : string :=
  String (ascii_of_nat 34) (s ++ String (ascii_of_nat 34) EmptyString).

Fixpoint json_members (kvs : list (string * string)) : string :=
  match kvs with
  | [] => EmptyString
  | [(k, v)] => quoted k ++ ":" ++ quoted v
  | (k, v) :: rest => quoted k ++ ":" ++ quoted v ++ "," ++ json_members rest
  end%string.

Definition marshal (v : any) : option bytes * option string :=
  (Some (list_byte_of_string ("{" ++ json_members (entries v) ++ "}")),
   None).

Definition call (k : rkind) (cl : string) (method : string)
    (args : list rpcArg) (n : list common_Hash)
  : (option (rtype common_Hash k) * option string) * list common_Hash :=
  match k return (option (rtype common_Hash k) * option string)
                 * list common_Hash with
  | KReceipt =>
      match args with
      | [ArgHash h] =>
          if existsb (fun x => if list_eq_dec Byte.byte_eq_dec x h
                               then true else false) n
          then ((Some h, None), n)
          else ((None, None), n)
      | _ => ((None, Some "invalid argument"%string), n)
      end
  | _ => ((None, None), n)
  end.

Definition dial (rawurl : string) (n : list common_Hash)
  : (option string * option string) * list common_Hash :=
  if prefix "http://" rawurl then ((Some rawurl, None), n)
  else ((None, Some "no known transport for URL scheme"%string), n).

#[export] Instance externals : Externals :=
  {| error := string;
     PrivateKey := bytes;
     Receipt := common_Hash;
     Client := string;
     Node := list common_Hash;
     HexToECDSA := parse_key;
     crypto_Sign := sign_det;
     SignHash := digest32;
     json_Marshal := marshal;
     NotFound := "not found"%string;
     HexToHash := list_byte_of_string;
     HexToAddress := list_byte_of_string;
     rpc_Dial := dial;
     CallContext := call |}.

(** The keys and addresses of the repository's tests. *)
Definition buyerPriKey : string :=
  "057b05b9cff85c963c3ab90d26503700646781f938054171461b17ad5f7082db".
Definition exchangerPriKey1 : string :=
  "1ba6579ab53049bd9730d644815a49fd065d6626e74862873402a99227564c3d".
Definition exchangeAddress : string :=
  "0xaECE03150f0A6565e8308E872Bf3Ec143A0b4879".

Definition world0 : World := mkWorld (E:=externals) [] [].

Definition wl : Wallet := mkWallet exchangerPriKey1.
Definition endpoint : string := "http://192.168.4.240:8560".
Definition worm : Wormholes := mkWormholes wl (Some endpoint).
Definition amount : string := "0xde0b6b3a7640000".
Definition nft1 : string := "0x0000000000000000000000000000000000000001".
Definition nft2 : string := "0x0000000000000000000000000000000000000002".
Definition exchanger : string := "0x8b07aff2327a3B7e2876D899caFac99f7AE16B10".

(** What the reference runs return. *)
Definition payload_of (o : outcome (option bytes * option string))
  : option bytes :=
  match o with
  | Returns (p, _) => p
  | _ => None
  end.

Definition delegate_request : SignRequest :=
  ReqDelegate "address" "pledgeAccount".

Definition delegate_text : string :=
  "0x61646472657373706c656467654163636f756e7400000000000000000000000031626136353739616235333034396264393733306436343438313561343966641c".

Definition buyer_request : SignRequest :=
  ReqBuyer amount nft1 exchangeAddress "0x6000" EmptyString.

Definition buyer_payload : option bytes :=
  Eval vm_compute in payload_of (result (sign wl buyer_request) world0).

Definition hello : bytes := list_byte_of_string "hello".

Definition hello_signature : bytes :=
  hello ++ repeat x00 27
    ++ list_byte_of_string "057b05b9cff85c963c3ab90d26503700" ++ [x1b].

(** [TestVoteOfficialNFTByApprovedExchanger] builds its client with an
    address where the key goes. *)
Definition exchangeAddress1 : string :=
  "0xC83279D0fEdd3A814aBe250007c61E324Ba467E6".

End Demo.

(** ** The rest of client/worm_client.go

    The operations below talk to the node through [CallContext] with an
    out-parameter that is a value ([hexutil.Big], [hexutil.Uint64],
    [string]), a pointer, a slice or nothing.  They run on a [Host]: the
    world, the requests sent so far and what was printed. *)

(** *** package types, continued *)

Module MinerProxy.
Record t := mk { Address : common_Address; Proxy : common_Address }.
End MinerProxy.

Definition MinerProxyList := list (option MinerProxy.t).

Module ActiveMiner.
Record t := mk { Address : common_Address; Balance : bigInt; Height : Z }.
End ActiveMiner.

Module ActiveMinerList.
Record t := mk { ActiveMiners : list (option ActiveMiner.t) }.
End ActiveMinerList.

(** *** Number formatting *)

(** [big.Int.Text(16)] of a positive number: lower-case hex digits, no
    leading zero. *)
Definition hex_text (p : positive) : string :=
  HexadecimalString.NilEmpty.string_of_uint (Pos.to_hex_uint p).

(** [hexutil.EncodeBig]. *)
Definition hexutil_EncodeBig (z : Z) : string :=
  match z with
  | Z0 => "0x0"
  | Zpos p => "0x" ++ hex_text p
  | Zneg p => "-0x" ++ hex_text p
  end%string.

(** [fmt.Sprintf("0x%x", number)] for a signed integer: [%x] writes the
    sign, then the magnitude. *)
Definition Sprintf_0x_x (number : Z) : string :=
  match number with
  | Z0 => "0x0"
  | Zpos p => "0x" ++ hex_text p
  | Zneg p => "0x-" ++ hex_text p
  end%string.

(** [big.Int.SetString(s, 10)]: an optional sign, then one decimal digit
    or more, and nothing else; [None] when it reports failure. *)
Definition decimal_digits (s : string) : option N :=
  option_map N.of_uint (DecimalString.NilZero.uint_of_string s).

Definition big_SetString_10 (s : string) : option Z :=
  match s with
  | String "+" rest => option_map Z.of_N (decimal_digits rest)
  | String "-" rest => option_map (fun n => (- Z.of_N n)%Z) (decimal_digits rest)
  | _ => option_map Z.of_N (decimal_digits s)
  end.

(** The conversion [uint64] to [int64] ([rpc.BlockNumber(number)] on a
    [uint64]) wraps around. *)
Definition int64_of_uint64 (n : Z) : Z :=
  ((n + 2 ^ 63) mod 2 ^ 64 - 2 ^ 63)%Z.

(** *** toBlockNumArg *)

Definition toBlockNumArg (number : bigInt) : string :=
  match number with
  | None => "latest"
  | Some n =>
      let pending := (-1)%Z in
      match (n ?= pending)%Z with
      | Eq => "pending"
      | _ => hexutil_EncodeBig n
      end
  end.

(** *** The calls *)

(** The parameters these operations pass to [CallContext]. *)
Inductive rpcParam : Type :=
| ParamHash (h : common_Hash)
| ParamAddress (a : common_Address)
| ParamString (s : string)
| ParamUint64 (n : Z)
| ParamBlockNumber (n : Z).

(** What the out-parameter of a call is. *)
Inductive okind : Type :=
| OBig | OUint64 | OString | ONothing
| OTransaction | OMinerProxyList | OActiveMinerList.

Module rpcTransaction.
Record t (Transaction : Type) := mk
  { tx : option Transaction; BlockNumber : option string;
    BlockHash : option common_Hash; From : option common_Address }.
Arguments mk {Transaction} tx BlockNumber BlockHash From.
Arguments tx {Transaction} t.
Arguments BlockNumber {Transaction} t.
Arguments BlockHash {Transaction} t.
Arguments From {Transaction} t.
End rpcTransaction.

(** The content of the out-parameter after the call; for a pointer or a
    slice [None] is nil. *)
Definition otype (Transaction : Type) (k : okind) : Type :=
  match k with
  | OBig => Z
  | OUint64 => Z
  | OString => string
  | ONothing => unit
  | OTransaction => option (rpcTransaction.t Transaction)
  | OMinerProxyList => option MinerProxyList
  | OActiveMinerList => option ActiveMinerList.t
  end.

(** [types.Transaction] with the two methods used, the helper
    [setSenderFromServer] (it stores the sender in the transaction),
    [fmt.Errorf], and the client's [CallContext] and [Close]. *)
Class NodeExternals {E : Externals} : Type :=
  { Transaction : Type;
    RawSignatureValues : Transaction -> bigInt * bigInt * bigInt;
    MarshalBinary : Transaction -> option bytes * option error;
    setSenderFromServer :
      Transaction -> common_Address -> common_Hash -> Transaction;
    fmt_Errorf : string -> list string -> error;
    CallContextInto :
      forall k : okind, Client -> string -> list rpcParam -> Node ->
                        (otype Transaction k * option error) * Node;
    Close : Client -> Node -> Node }.

Section Host.

Context {E : Externals} {X : NodeExternals}.

(** A request sent over the connection. *)
Inductive Rpc : Type :=
| RpcCall (k : okind) (method : string) (params : list rpcParam)
| RpcClose.

Record Host : Type :=
  mkHost { world : World; requests : list Rpc;
           stdout : list (option ActiveMinerList.t) }.

Definition HM (A : Type) : Type := Host -> outcome A * Host.

Definition retH {A} (a : A) : HM A := fun h => (Returns a, h).

Definition bindH {A B} (m : HM A) (k : A -> HM B) : HM B :=
  fun h =>
    match m h with
    | (Returns a, h1) => k a h1
    | (Panics, h1) => (Panics, h1)
    | (Exits, h1) => (Exits, h1)
    end.

Definition panicH {A} : HM A := fun h => (Panics, h).

(** A computation on the world, run on the host. *)
Definition onWorld {A} (m : M A) : HM A :=
  fun h => let '(o, w) := m (world h) in
           (o, mkHost w (requests h) (stdout h)).

End Host.

Notation "x <~ m ;; k" := (bindH m (fun x => k))
  (at level 61, m at next level, right associativity).
Notation "' pat <~ m ;; k" := (bindH m (fun x => match x with pat => k end))
  (at level 61, pat pattern, m at next level, right associativity).

Section Node.

Context {E : Externals} {X : NodeExternals}.

(** [worm.c.CallContext(ctx, &result, method, params...)]. *)
Definition c_CallContextInto (k : okind) (cl : option Client)
    (method : string) (params : list rpcParam)
  : HM (otype Transaction k * option error) :=
  match cl with
  | None => panicH
  | Some cl =>
      fun h =>
        let '(r, n) := CallContextInto k cl method params (node (world h)) in
        (Returns r,
         mkHost (mkWorld n (calls (world h)))
                (requests h ++ [RpcCall k method params]) (stdout h))
  end.

(** [fmt.Println(al)]. *)
Definition fmt_Println (al : option ActiveMinerList.t) : HM unit :=
  fun h => (Returns tt, mkHost (world h) (requests h) (stdout h ++ [al])).

Definition CloseConnect (worm : Wormholes) : HM unit :=
  match c worm with
  | None => panicH
  | Some cl =>
      fun h =>
        (Returns tt,
         mkHost (mkWorld (Close cl (node (world h))) (calls (world h)))
                (requests h ++ [RpcClose]) (stdout h))
  end.

Definition ChainID (worm : Wormholes) : HM (bigInt * option error) :=
  '(result, err) <~ c_CallContextInto OBig (c worm) "eth_chainId" [] ;;
  match err with
  | Some _ => retH (None, err)
  | None => retH (Some result, err)
  end.

Definition BlockNumber (worm : Wormholes) : HM (Z * option error) :=
  '(result, err) <~ c_CallContextInto OUint64 (c worm) "eth_blockNumber" [] ;;
  retH (result, err).

Definition TransactionInBlock (worm : Wormholes) (blockHash : common_Hash)
    (index : Z) : HM (option Transaction * option error) :=
  '(json, err) <~ c_CallContextInto OTransaction (c worm)
                    "eth_getTransactionByBlockHashAndIndex"
                    [ParamHash blockHash; ParamUint64 index] ;;
  match err with
  | Some _ => retH (None, err)
  | None =>
      match json with
      | None => retH (None, Some NotFound)
      | Some j =>
          match rpcTransaction.tx j with
          | None => panicH
          | Some t =>
              let '(_, r, _) := RawSignatureValues t in
              match r with
              | None =>
                  retH (None,
                        Some (fmt_Errorf
                                "server returned transaction without signature"
                                []))
              | Some _ =>
                  match rpcTransaction.From j, rpcTransaction.BlockHash j with
                  | Some from, Some hash =>
                      retH (Some (setSenderFromServer t from hash), err)
                  | _, _ => retH (Some t, err)
                  end
              end
          end
      end
  end.

Definition PendingNonceAt (worm : Wormholes) (account : common_Address)
  : HM (Z * option error) :=
  '(result, err) <~ c_CallContextInto OUint64 (c worm)
                      "eth_getTransactionCount"
                      [ParamAddress account; ParamString "pending"] ;;
  retH (result, err).

Definition SuggestGasPrice (worm : Wormholes) : HM (bigInt * option error) :=
  '(hex, err) <~ c_CallContextInto OBig (c worm) "eth_gasPrice" [] ;;
  match err with
  | Some _ => retH (None, err)
  | None => retH (Some hex, None)
  end.

Definition SendTransaction (worm : Wormholes) (tx : option Transaction)
  : HM (option error) :=
  match tx with
  | None => panicH
  | Some t =>
      let '(data, err) := MarshalBinary t in
      match err with
      | Some _ => retH err
      | None =>
          '(_, err) <~ c_CallContextInto ONothing (c worm)
                         "eth_sendRawTransaction"
                         [ParamString
                            (hexutil_Encode
                               match data with Some d => d | None => [] end)] ;;
          retH err
      end
  end.

Definition NetworkID (worm : Wormholes) : HM (bigInt * option error) :=
  '(ver, err) <~ c_CallContextInto OString (c worm) "net_version" [] ;;
  match err with
  | Some _ => retH (None, err)
  | None =>
      match big_SetString_10 ver with
      | None =>
          retH (None, Some (fmt_Errorf "invalid net_version result %q" [ver]))
      | Some version => retH (Some version, None)
      end
  end.

Definition Balance (worm : Wormholes) (account : string)
  : HM (bigInt * option error) :=
  let accounts := HexToAddress account in
  '(result, err) <~ c_CallContextInto OBig (c worm) "eth_getBalance"
                      [ParamAddress accounts; ParamString "pending"] ;;
  retH (Some result, err).

Definition BalanceAt (worm : Wormholes) (account : string)
    (blockNumber : bigInt) : HM (bigInt * option error) :=
  let accounts := HexToAddress account in
  '(result, err) <~ c_CallContextInto OBig (c worm) "eth_getBalance"
                      [ParamAddress accounts;
                       ParamString (toBlockNumArg blockNumber)] ;;
  retH (Some result, err).

Definition QueryMinerProxy (worm : Wormholes) (number : Z) (account : string)
  : HM (option MinerProxyList * option error) :=
  let nu := Sprintf_0x_x number in
  let accounts := HexToAddress account in
  '(result, err) <~ c_CallContextInto OMinerProxyList (c worm)
                      "eth_queryMinerProxy"
                      [ParamString nu; ParamAddress accounts] ;;
  match err with
  | Some _ => retH (None, err)
  | None => retH (result, err)
  end.

Definition GetActiveLivePool (worm : Wormholes) (number : Z)
  : HM (option ActiveMinerList.t * option error) :=
  let nu := ParamBlockNumber (int64_of_uint64 number) in
  '(al, err) <~ c_CallContextInto OActiveMinerList (c worm)
                  "eth_getActiveLivePool" [nu] ;;
  match err with
  | Some _ => retH (None, err)
  | None => _ <~ fmt_Println al ;; retH (al, err)
  end.

(** The requests a run sends, what it prints and what it returns. *)
Definition sent {A} (m : HM A) (h : Host) : list Rpc :=
  skipn (List.length (requests h)) (requests (snd (m h))).

Definition printed {A} (m : HM A) (h : Host)
  : list (option ActiveMinerList.t) :=
  skipn (List.length (stdout h)) (stdout (snd (m h))).

Definition resultH {A} (m : HM A) (h : Host) : outcome A := fst (m h).

End Node.

(** Exactly one of value and error is nil, in a run that returns. *)
Definition value_xor_error {A Err : Type}
    (o : outcome (option A * option Err)) : bool :=
  match o with
  | Returns (Some _, None) | Returns (None, Some _) => true
  | Returns _ => false
  | _ => true
  end.

(** A payload is never returned next to an error. *)
Definition not_both {A Err : Type} (o : outcome (option A * option Err))
  : bool :=
  match o with
  | Returns (Some _, Some _) => false
  | _ => true
  end.

(** The value is never nil, with or without an error. *)
Definition has_value {A Err : Type} (o : outcome (option A * option Err))
  : bool :=
  match o with
  | Returns (None, _) => false
  | _ => true
  end.

(** *** The reference instance, continued

    A transaction is its bytes and the [r] of its signature; the node
    knows its chain id, counts its blocks, has no pending state, keeps
    the raw transactions it is sent and serves the first transaction of a
    block it has mined. *)
Module DemoNode.

Definition tx_t : Type := (bytes * bigInt)%type.

Definition raw_signature (t : tx_t) : bigInt * bigInt * bigInt :=
  (Some 27%Z, snd t, Some 1%Z).

Definition marshal_binary (t : tx_t) : option bytes * option string :=
  match fst t with
  | [] => (None, Some "rlp: empty transaction"%string)
  | d => (Some d, None)
  end.

Definition set_sender (t : tx_t) (a : common_Address) (b : common_Hash)
  : tx_t := t.

Definition errorf (format : string) (args : list string) : string :=
  String.concat " " (format :: args).

Definition mined (h : common_Hash) (n : list common_Hash) : bool :=
  existsb (fun x => if list_eq_dec Byte.byte_eq_dec x h then true else false)
          n.

Definition call_into (k : okind) (cl : string) (method : string)
    (params : list rpcParam) (n : list common_Hash)
  : (otype tx_t k * option string) * list common_Hash :=
  match k return (otype tx_t k * option string) * list common_Hash with
  | OBig =>
      match params with
      | [] => ((51888%Z, None), n)
      | [_; ParamString "pending"] =>
          ((0%Z, Some "pending state is not available"%string), n)
      | _ => ((1000000%Z, None), n)
      end
  | OUint64 => ((Z.of_nat (List.length n), None), n)
  | OString => (("51888"%string, None), n)
  | ONothing =>
      match params with
      | [ParamString s] => ((tt, None), n ++ [list_byte_of_string s])
      | _ => ((tt, Some "invalid argument"%string), n)
      end
  | OTransaction =>
      match params with
      | [ParamHash b; ParamUint64 0] =>
          if mined b n
          then ((Some (rpcTransaction.mk (Some (b, Some 7%Z)) None
                         (Some b) (Some b)), None), n)
          else ((None, None), n)
      | _ => ((None, None), n)
      end
  | OMinerProxyList => ((None, None), n)
  | OActiveMinerList => ((None, None), n)
  end.

#[export] Instance node_externals : NodeExternals (E:=Demo.externals) :=
  @Build_NodeExternals Demo.externals tx_t raw_signature marshal_binary
    set_sender errorf call_into (fun _ n => n).

Definition host0 : Host := mkHost Demo.world0 [] [].

Definition block1 : common_Hash := list_byte_of_string "block-1".

Definition host1 : Host :=
  mkHost (mkWorld (E:=Demo.externals) [block1] []) [] [].

End DemoNode.

(** *** An instance whose primitives fail

    As the reference instance, but the message is signed as it is, so
    that [crypto.Sign] refuses every message that is not 32 bytes long,
    and the encoder fails on every struct. *)
Module Faulty.

Definition marshal_fails (v : any) : option bytes * option string :=
  (Some [x7b], Some "json: error calling MarshalJSON"%string).

#[export] Instance externals : Externals :=
  {| error := string;
     PrivateKey := bytes;
     Receipt := common_Hash;
     Client := string;
     Node := list common_Hash;
     HexToECDSA := Demo.parse_key;
     crypto_Sign := Demo.sign_det;
     SignHash := fun data => data;
     json_Marshal := marshal_fails;
     NotFound := "not found"%string;
     HexToHash := list_byte_of_string;
     HexToAddress := list_byte_of_string;
     rpc_Dial := Demo.dial;
     CallContext := Demo.call |}.

Definition world0 : World := mkWorld (E:=externals) [] [].

(** Three fields of 32 bytes together. *)
Definition exchanger_request : SignRequest :=
  ReqExchanger "0xaECE03150f0A" "0xC83279D0fEdd3A" "0x".

End Faulty.

(** *** More runs on the reference instance *)
Module DemoRuns.

Definition seller1_request : SignRequest :=
  ReqSeller1 Demo.amount Demo.nft1 Demo.exchangeAddress "0x6000".

Definition seller1_payload : option bytes :=
  Eval vm_compute in
    Demo.payload_of (result (sign Demo.wl seller1_request) Demo.world0).

Definition account : string := "0xED8cfA91F533C47863E520DE828E2f970c8f52DB".

(** A transaction of three bytes, and one that does not marshal. *)
Definition tx3 : DemoNode.tx_t := ([x01; x02; x03], Some 7%Z).
Definition tx_empty : DemoNode.tx_t := ([], Some 7%Z).

End DemoRuns.

(** ** encoding/json on a struct of strings

    [json.Marshal] of a struct whose fields are strings writes one object,
    the members in the order of the fields, each a quoted key, a colon and
    a quoted value, with commas between.  Keys and values go through the
    encoder's string routine: a byte below 0x80 is copied when it is in
    [htmlSafeSet] and escaped otherwise; a byte from 0x80 up is read with
    [utf8.DecodeRuneInString]: a byte that starts no well-formed UTF-8
    sequence is replaced by the six characters backslash, u, f, f, f, d;
    the line and paragraph separators U+2028 and U+2029 are written as
    backslash, u and their four hex digits; every other well-formed
    sequence is copied.  Go 1.22 began to write backspace and form feed
    with the two-character escapes where earlier releases write
    backslash, u, 0008 and 000c; [short] says which. *)

Definition in_range (lo hi : N) (b : byte) : bool :=
  ((lo <=? Byte.to_N b) && (Byte.to_N b <=? hi))%N.

(** [htmlSafeSet]: the bytes from space to DEL except the double quote,
    the backslash and the three characters [<], [>] and [&]. *)
Definition htmlSafe (b : byte) : bool :=
  in_range 32 127 b
  && negb (Byte.eqb b x22 || Byte.eqb b x5c || Byte.eqb b x3c
           || Byte.eqb b x3e || Byte.eqb b x26).

Definition u00 (b : byte) : bytes :=
  list_byte_of_string
    ("u00" ++ String (hexdigit (Byte.to_N b / 16))
                (String (hexdigit (Byte.to_N b mod 16)) EmptyString)).

(** What is written for a byte below 0x80. *)
Definition escape_ascii (short : bool) (b : byte) : bytes :=
  if htmlSafe b then [b]
  else
    x5c ::
    (if Byte.eqb b x5c || Byte.eqb b x22 then [b]
     else if Byte.eqb b x0a then [x6e]
     else if Byte.eqb b x0d then [x72]
     else if Byte.eqb b x09 then [x74]
     else if short && Byte.eqb b x08 then [x62]
     else if short && Byte.eqb b x0c then [x66]
     else u00 b).

(** The well-formed UTF-8 sequences of two, three and four bytes, as
    [utf8.DecodeRuneInString] accepts them. *)
Definition cont (b : byte) : bool := in_range 128 191 b.

Definition rune2 (b0 b1 : byte) : bool := in_range 194 223 b0 && cont b1.

Definition rune3 (b0 b1 b2 : byte) : bool :=
  (Byte.eqb b0 xe0 && in_range 160 191 b1
   || in_range 225 236 b0 && cont b1
   || Byte.eqb b0 xed && in_range 128 159 b1
   || in_range 238 239 b0 && cont b1)
  && cont b2.

Definition rune4 (b0 b1 b2 b3 : byte) : bool :=
  (Byte.eqb b0 xf0 && in_range 144 191 b1
   || in_range 241 243 b0 && cont b1
   || Byte.eqb b0 xf4 && in_range 128 143 b1)
  && cont b2 && cont b3.

(** Backslash, u, f, f, f, d. *)
Definition replacement : bytes := [x5c; x75; x66; x66; x66; x64].

(** What is written for a well-formed sequence of three bytes. *)
Definition escape_rune3 (b0 b1 b2 : byte) : bytes :=
  if Byte.eqb b0 xe2 && Byte.eqb b1 x80 && Byte.eqb b2 xa8
  then [x5c; x75; x32; x30; x32; x38]
  else if Byte.eqb b0 xe2 && Byte.eqb b1 x80 && Byte.eqb b2 xa9
  then [x5c; x75; x32; x30; x32; x39]
  else [b0; b1; b2].

(** The body of the encoder's string routine, between the quotes. *)
Fixpoint json_escape (short : bool) (s : bytes) : bytes :=
  match s with
  | [] => []
  | b0 :: r =>
      if (Byte.to_N b0 <? 128)%N then escape_ascii short b0 ++ json_escape short r
      else
        match r with
        | [] => replacement ++ json_escape short r
        | b1 :: r1 =>
            if rune2 b0 b1 then b0 :: b1 :: json_escape short r1
            else
              match r1 with
              | [] => replacement ++ json_escape short r
              | b2 :: r2 =>
                  if rune3 b0 b1 b2
                  then escape_rune3 b0 b1 b2 ++ json_escape short r2
                  else
                    match r2 with
                    | [] => replacement ++ json_escape short r
                    | b3 :: r3 =>
                        if rune4 b0 b1 b2 b3
                        then b0 :: b1 :: b2 :: b3 :: json_escape short r3
                        else replacement ++ json_escape short r
                    end
              end
        end
  end.

(** [utf8.ValidString]. *)
Fixpoint utf8_valid (s : bytes) : bool :=
  match s with
  | [] => true
  | b0 :: r =>
      if (Byte.to_N b0 <? 128)%N then utf8_valid r
      else
        match r with
        | [] => false
        | b1 :: r1 =>
            if rune2 b0 b1 then utf8_valid r1
            else
              match r1 with
              | [] => false
              | b2 :: r2 =>
                  if rune3 b0 b1 b2 then utf8_valid r2
                  else
                    match r2 with
                    | [] => false
                    | b3 :: r3 =>
                        if rune4 b0 b1 b2 b3 then utf8_valid r3 else false
                    end
              end
        end
  end.

Definition json_string (short : bool) (s : string) : bytes :=
  x22 :: json_escape short (list_byte_of_string s) ++ [x22].

Fixpoint json_pairs (short : bool) (kvs : list (string * string)) : bytes :=
  match kvs with
  | [] => []
  | [(k, v)] => json_string short k ++ [x3a] ++ json_string short v
  | (k, v) :: rest =>
      json_string short k ++ [x3a] ++ json_string short v ++ [x2c]
        ++ json_pairs short rest
  end.

Definition json_object (short : bool) (kvs : list (string * string))
  : bytes :=
  x7b :: json_pairs short kvs ++ [x7d].

(** The Go name of the struct type of a value. *)
Definition struct_name (v : any) : string :=
  match v with
  | AnyBuyer _ => "Buyer"
  | AnySeller1 _ => "Seller1"
  | AnySeller2 _ => "Seller2"
  | AnyExchangerAuth _ => "ExchangerAuth"
  end.

(** Modelled from the spec: the struct declarations of package types,
    with their field tags, are not among the sources.  As the spec has
    the payload, every field is one member of the object, written also
    when it is empty; [tag] gives the key of a field of a struct. *)
Definition encoding_json_Marshal (short : bool)
    (tag : string -> string -> string) (v : any) : bytes :=
  json_object short
    (map (fun kv => (tag (struct_name v) (fst kv), snd kv)) (entries v)).

(** *** Reading the object back

    A reader of the JSON text the encoder writes (RFC 8259, sections 4
    and 7), without white space.  In a string, a backslash takes one of
    the eight characters after it, or u and four hex digits for a code
    point of the basic plane outside the surrogates, which is put back in
    UTF-8; a control character and a surrogate escape, which the encoder
    never writes, are not read; every other byte up to the closing quote
    stands for itself. *)

Definition byte_of_N (n : N) : byte :=
  match Byte.of_N n with
  | Some b => b
  | None => x00
  end.

Definition hexval (b : byte) : option N :=
  if in_range 48 57 b then Some (Byte.to_N b - 48)%N
  else if in_range 97 102 b then Some (Byte.to_N b - 87)%N
  else if in_range 65 70 b then Some (Byte.to_N b - 55)%N
  else None.

Definition hex4 (h1 h2 h3 h4 : byte) : option N :=
  match hexval h1, hexval h2, hexval h3, hexval h4 with
  | Some a, Some b, Some c, Some d =>
      Some (((a * 16 + b) * 16 + c) * 16 + d)%N
  | _, _, _, _ => None
  end.

Definition utf8_encode (cp : N) : option bytes :=
  if (cp <? 128)%N then Some [byte_of_N cp]
  else if (cp <? 2048)%N
  then Some [byte_of_N (192 + cp / 64); byte_of_N (128 + cp mod 64)]
  else if ((55296 <=? cp) && (cp <=? 57343))%N then None
  else Some [byte_of_N (224 + cp / 4096);
             byte_of_N (128 + (cp / 64) mod 64);
             byte_of_N (128 + cp mod 64)].

Definition simple_escape (c : byte) : option byte :=
  if Byte.eqb c x22 then Some x22
  else if Byte.eqb c x5c then Some x5c
  else if Byte.eqb c x2f then Some x2f
  else if Byte.eqb c x62 then Some x08
  else if Byte.eqb c x66 then Some x0c
  else if Byte.eqb c x6e then Some x0a
  else if Byte.eqb c x72 then Some x0d
  else if Byte.eqb c x74 then Some x09
  else None.

(** [u] put before the value that was read. *)
Definition push (u : bytes) (p : option (bytes * bytes))
  : option (bytes * bytes) :=
  match p with
  | Some (v, rest) => Some (u ++ v, rest)
  | None => None
  end.

(** The value of a string, from after its opening quote, and the text
    after its closing quote. *)
Fixpoint json_read_string (s : bytes) : option (bytes * bytes) :=
  match s with
  | [] => None
  | b :: t =>
      if Byte.eqb b x22 then Some ([], t)
      else if Byte.eqb b x5c then
        match t with
        | [] => None
        | c :: t1 =>
            if Byte.eqb c x75 then
              match t1 with
              | h1 :: h2 :: h3 :: h4 :: t5 =>
                  match hex4 h1 h2 h3 h4 with
                  | Some cp =>
                      match utf8_encode cp with
                      | Some u => push u (json_read_string t5)
                      | None => None
                      end
                  | None => None
                  end
              | _ => None
              end
            else
              match simple_escape c with
              | Some x => push [x] (json_read_string t1)
              | None => None
              end
        end
      else if (Byte.to_N b <? 32)%N then None
      else push [b] (json_read_string t)
  end.

(** The members of an object, from its first key to its closing brace;
    [n] bounds their number. *)
Fixpoint json_read_members (n : nat) (s : bytes)
  : option (list (bytes * bytes)) :=
  match n, s with
  | S n', q :: t =>
      if Byte.eqb q x22 then
        match json_read_string t with
        | Some (k, c :: q' :: t1) =>
            if Byte.eqb c x3a && Byte.eqb q' x22 then
              match json_read_string t1 with
              | Some (v, d :: t2) =>
                  if Byte.eqb d x7d then
                    match t2 with
                    | [] => Some [(k, v)]
                    | _ :: _ => None
                    end
                  else if Byte.eqb d x2c
                  then option_map (cons (k, v)) (json_read_members n' t2)
                  else None
              | _ => None
              end
            else None
        | _ => None
        end
      else None
  | _, _ => None
  end.

(** The keys and values of an object whose values are strings, in the
    order of the text. *)
Definition json_read_object (s : bytes) : option (list (bytes * bytes)) :=
  match s with
  | o :: c :: t =>
      if Byte.eqb o x7b then
        if Byte.eqb c x7d then
          match t with
          | [] => Some []
          | _ :: _ => None
          end
        else json_read_members (S (List.length t)) (c :: t)
      else None
  | _ => None
  end.

(** The UTF-8 encoding of U+FFFD, the replacement character. *)
Definition replacement_rune : bytes := [xef; xbf; xbd].

(** A string with every byte that starts no well-formed UTF-8 sequence
    replaced by the replacement character. *)
Fixpoint utf8_repair (s : bytes) : bytes :=
  match s with
  | [] => []
  | b0 :: r =>
      if (Byte.to_N b0 <? 128)%N then b0 :: utf8_repair r
      else
        match r with
        | [] => replacement_rune ++ utf8_repair r
        | b1 :: r1 =>
            if rune2 b0 b1 then b0 :: b1 :: utf8_repair r1
            else
              match r1 with
              | [] => replacement_rune ++ utf8_repair r
              | b2 :: r2 =>
                  if rune3 b0 b1 b2 then b0 :: b1 :: b2 :: utf8_repair r2
                  else
                    match r2 with
                    | [] => replacement_rune ++ utf8_repair r
                    | b3 :: r3 =>
                        if rune4 b0 b1 b2 b3
                        then b0 :: b1 :: b2 :: b3 :: utf8_repair r3
                        else replacement_rune ++ utf8_repair r
                    end
              end
        end
  end.

(** A Go string as a reader of the payload gets it back. *)
Definition read_back (s : string) : bytes :=
  utf8_repair (list_byte_of_string s).

Section EncodingJSON.

Context {E : Externals}.

(** The encoder in use is [encoding/json]'s. *)
Definition Marshal_is_encoding_json (short : bool)
    (tag : string -> string -> string) : Prop :=
  forall v : any,
    json_Marshal v = (Some (encoding_json_Marshal short tag v), None).

End EncodingJSON.

(** *** The reference instance with [encoding/json] as its encoder

    The keys are the Go field names, as for a struct without tags. *)
Module GoJSON.

Definition field_name (struct field : string) : string := field.

Definition marshal (v : any) : option bytes * option string :=
  (Some (encoding_json_Marshal false field_name v), None).

#[export] Instance externals : Externals :=
  {| error := string;
     PrivateKey := bytes;
     Receipt := common_Hash;
     Client := string;
     Node := list common_Hash;
     HexToECDSA := Demo.parse_key;
     crypto_Sign := Demo.sign_det;
     SignHash := Demo.digest32;
     json_Marshal := marshal;
     NotFound := "not found"%string;
     HexToHash := list_byte_of_string;
     HexToAddress := list_byte_of_string;
     rpc_Dial := Demo.dial;
     CallContext := Demo.call |}.

Definition world0 : World := mkWorld (E:=externals) [] [].

(** An amount that is the one byte 0xff, which is no UTF-8. *)
Definition amount_ff : string := String (ascii_of_nat 255) EmptyString.

Definition request_ff : SignRequest :=
  ReqBuyer amount_ff Demo.nft1 Demo.exchangeAddress "0x6000" EmptyString.

Definition signature_ff : string :=
  "0xff3078303030303030303030303030303030303030303030303030303030303031626136353739616235333034396264393733306436343438313561343966641c".

(** The object text with the given keys and values between quotes, as
    they are. *)
Definition object_text (kvs : list (string * string)) : bytes :=
  list_byte_of_string ("{" ++ Demo.json_members kvs ++ "}").

Definition buyer_payload : option bytes :=
  Eval vm_compute in
    Demo.payload_of
      (result (E:=externals) (sign Demo.wl Demo.buyer_request) world0).

(** The payload of [request_ff]: its amount is written as backslash, u, f,
    f, f, d. *)
Definition payload_ff : bytes :=
  object_text
    [("Amount", string_of_list_byte replacement);
     ("NFTAddress", Demo.nft1);
     ("Exchanger", Demo.exchangeAddress);
     ("BlockNumber", "0x6000");
     ("Seller", EmptyString);
     ("Sig", signature_ff)]%string.

End GoJSON.

(** * Properties *)

(** ** Bytes, strings and the hex encoding *)

Lemma uint8_add_to_N (b : byte) (n : N) :
  Byte.to_N (uint8_add b n) = ((Byte.to_N b + n) mod 256)%N.
Proof.
  unfold uint8_add.
  destruct (Byte.of_N ((Byte.to_N b + n) mod 256)) as [r|] eqn:Hr.
  - now apply Byte.to_of_N.
  - apply Byte.of_N_None_iff in Hr.
    assert ((Byte.to_N b + n) mod 256 < 256)%N by (apply N.mod_lt; discriminate).
    lia.
Qed.

Lemma index_add_inv (i : nat) (n : N) :
  forall s s', index_add s i n = Some s' ->
    exists front v back,
      s = front ++ v :: back /\ List.length front = i /\
      s' = front ++ uint8_add v n :: back.
Proof.
  induction i as [|i IH]; intros [|b r] s' H; simpl in H; try discriminate.
  - injection H as <-. now exists [], b, r.
  - destruct (index_add r i n) as [t|] eqn:Ht; simpl in H; try discriminate.
    injection H as <-.
    destruct (IH _ _ Ht) as (front & v & back & -> & <- & ->).
    now exists (b :: front), v, back.
Qed.

Lemma list_byte_of_string_app (a b : string) :
  list_byte_of_string (a ++ b) = list_byte_of_string a ++ list_byte_of_string b.
Proof.
  unfold list_byte_of_string.
  induction a as [|x a IH]; simpl; [reflexivity|now rewrite IH].
Qed.

Lemma list_byte_of_string_inj (a b : string) :
  list_byte_of_string a = list_byte_of_string b -> a = b.
Proof.
  intros H.
  rewrite <- (string_of_list_byte_of_string a), H.
  apply string_of_list_byte_of_string.
Qed.

Lemma list_byte_of_concat (l : list string) :
  list_byte_of_string (String.concat EmptyString l)
  = List.concat (map list_byte_of_string l).
Proof.
  induction l as [|x [|y l] IH].
  - reflexivity.
  - simpl. now rewrite app_nil_r.
  - change (String.concat EmptyString (x :: y :: l))
      with (x ++ String.concat EmptyString (y :: l))%string.
    rewrite list_byte_of_string_app, IH. reflexivity.
Qed.

Lemma hex_EncodeToString_length (b : bytes) :
  String.length (hex_EncodeToString b) = (2 * List.length b)%nat.
Proof. induction b as [|x b IH]; simpl; [reflexivity|rewrite IH; lia]. Qed.

Lemma hexutil_Encode_length (b : bytes) :
  String.length (hexutil_Encode b) = (2 + 2 * List.length b)%nat.
Proof. unfold hexutil_Encode. simpl. now rewrite hex_EncodeToString_length. Qed.

Lemma hexutil_Encode_prefix (b : bytes) :
  prefix "0x" (hexutil_Encode b) = true.
Proof. unfold hexutil_Encode. simpl. now destruct (hex_EncodeToString b). Qed.

(** ** What a signing run does

    [sign_run] and [Sign_run] connect the summary [signing_run] to the
    operations as written. *)

Section Runs.

Context {E : Externals}.

Ltac step :=
  unfold bind, ret, panic, record, crypto_HexToECDSA, tools_SignHash,
    crypto_Sign_, json_Marshal_, signature_64_add_27; simpl.

Lemma Sign_run (w : Wallet) (data : bytes) (hexkey : string) (s : World) :
  Sign w data hexkey s
  = (fst (signing_run hexkey data finish_Sign),
     mkWorld (node s)
       (calls s ++ snd (signing_run hexkey data finish_Sign))).
Proof.
  unfold Sign, signing_run, finish_Sign. step.
  destruct (HexToECDSA hexkey) as [key [e|]]; simpl; [reflexivity|].
  destruct (crypto_Sign (SignHash data) key) as [sg [e|]]; simpl;
    [now rewrite <- !app_assoc|].
  destruct sg as [raw|]; simpl; [|now rewrite <- !app_assoc].
  destruct (index_add raw 64 27) as [sig|]; simpl;
    rewrite <- ?app_assoc; simpl; now rewrite ?app_nil_r.
Qed.

Lemma sign_run (w : Wallet) (r : SignRequest) (s : World) :
  sign w r s
  = (fst (signing_run (priKey w) (message r) (finish r)),
     mkWorld (node s)
       (calls s ++ snd (signing_run (priKey w) (message r) (finish r)))).
Proof.
  destruct r; unfold sign, SignBuyer, SignSeller1, SignSeller2, SignExchanger,
    SignDelegate, signing_run, finish, finish_role, message;
  cbn [fields String.concat authorization]; step;
  (destruct (HexToECDSA (priKey w)) as [key [e|]]; simpl; [reflexivity|]);
  match goal with
  | |- context [crypto_Sign ?d key] =>
      destruct (crypto_Sign d key) as [sg [e|]]; simpl;
      [now rewrite <- !app_assoc|]
  end;
  (destruct sg as [raw|]; simpl; [|now rewrite <- !app_assoc]);
  (destruct (index_add raw 64 27) as [sig|]; simpl;
   [|now rewrite <- !app_assoc]);
  try (now rewrite <- !app_assoc);
  match goal with
  | |- context [json_Marshal ?v] =>
      destruct (json_Marshal v) as [res [e|]]; simpl;
      now rewrite <- !app_assoc
  end.
Qed.

Lemma skipn_length_app {A} (l x : list A) : skipn (List.length l) (l ++ x) = x.
Proof. induction l; simpl; auto. Qed.

Lemma trace_sign (w : Wallet) (r : SignRequest) (s : World) :
  trace (sign w r) s = snd (signing_run (priKey w) (message r) (finish r)).
Proof. unfold trace. rewrite sign_run. simpl. apply skipn_length_app. Qed.

Lemma result_sign (w : Wallet) (r : SignRequest) (s : World) :
  result (sign w r) s = fst (signing_run (priKey w) (message r) (finish r)).
Proof. unfold result. now rewrite sign_run. Qed.

Lemma trace_Sign (w : Wallet) (data : bytes) (hexkey : string) (s : World) :
  trace (Sign w data hexkey) s = snd (signing_run hexkey data finish_Sign).
Proof. unfold trace. rewrite Sign_run. simpl. apply skipn_length_app. Qed.

Lemma result_Sign (w : Wallet) (data : bytes) (hexkey : string) (s : World) :
  result (Sign w data hexkey) s = fst (signing_run hexkey data finish_Sign).
Proof. unfold result. now rewrite Sign_run. Qed.

End Runs.

(** ** The signable message *)

Section Messages.

Context {E : Externals}.

Lemma hashed_signing_run (hexkey : string) (msg : bytes) (r : SignRequest) :
  hashed (snd (signing_run hexkey msg (finish r)))
  = if key_ok hexkey then [msg] else [].
Proof.
  unfold signing_run, key_ok.
  destruct (HexToECDSA hexkey) as [key [e|]]; simpl; [reflexivity|].
  destruct (crypto_Sign (SignHash msg) key) as [sg [e|]]; simpl;
    [reflexivity|].
  destruct (match sg with Some raw => index_add raw 64 27 | None => None end)
    as [sig|]; simpl; [|reflexivity].
  unfold finish. now destruct (authorization r (hexutil_Encode sig)).
Qed.

Lemma signed_signing_run (hexkey : string) (msg : bytes) (r : SignRequest) :
  signed (snd (signing_run hexkey msg (finish r)))
  = if key_ok hexkey then [SignHash msg] else [].
Proof.
  unfold signing_run, key_ok.
  destruct (HexToECDSA hexkey) as [key [e|]]; simpl; [reflexivity|].
  destruct (crypto_Sign (SignHash msg) key) as [sg [e|]]; simpl;
    [reflexivity|].
  destruct (match sg with Some raw => index_add raw 64 27 | None => None end)
    as [sig|]; simpl; [|reflexivity].
  unfold finish. now destruct (authorization r (hexutil_Encode sig)).
Qed.

Lemma hashed_sign (w : Wallet) (r : SignRequest) (s : World) :
  hashed (trace (sign w r) s)
  = if key_ok (priKey w) then [message r] else [].
Proof. rewrite trace_sign. apply hashed_signing_run. Qed.

(** C1.  Every role-signing operation hashes exactly one message, the
    concatenation of its field strings in declared order with nothing in
    between (for [SignBuyer]: amount, nftAddress, exchanger, blockNumber,
    seller), and signs exactly one digest, [SignHash] of that message.
    Nothing is hashed or signed when the key does not parse. *)
Theorem role_signs_digest_of_concatenation
    (w : Wallet) (r : SignRequest) (s : World) :
  hashed (trace (sign w r) s)
  = (if key_ok (priKey w)
     then [list_byte_of_string (String.concat EmptyString (fields r))]
     else [])
  /\ signed (trace (sign w r) s)
     = (if key_ok (priKey w)
        then [SignHash
                (list_byte_of_string (String.concat EmptyString (fields r)))]
        else [])
  /\ forall amount nftAddress exchanger blockNumber seller : string,
       hashed
         (trace (SignBuyer w amount nftAddress exchanger blockNumber seller) s)
       = (if key_ok (priKey w)
          then [list_byte_of_string
                  (amount ++ nftAddress ++ exchanger ++ blockNumber
                     ++ seller)]
          else []).
Proof.
  split; [apply hashed_sign|split].
  - rewrite trace_sign. apply signed_signing_run.
  - intros a n e b sl. exact (hashed_sign w (ReqBuyer a n e b sl) s).
Qed.

End Messages.

Section Collisions.

Context {E : Externals}.

Lemma message_mutated (r r' : SignRequest) :
  one_field_mutated (fields r) (fields r') -> message r <> message r'.
Proof.
  intros (front & x & x' & back & Hl & Hl' & Hx) Hm. apply Hx.
  unfold message in Hm. rewrite !list_byte_of_concat, Hl, Hl' in Hm.
  rewrite !map_app, !concat_app in Hm. simpl in Hm.
  apply app_inv_head, app_inv_tail in Hm.
  now apply list_byte_of_string_inj.
Qed.

(** C3.  Field-sensitivity: when the key parses, two requests whose field
    lists differ in exactly one field (the others held fixed) hash
    different messages, whatever the two values of that field are. *)
Theorem one_field_changes_message
    (w : Wallet) (r r' : SignRequest) (s s' : World) :
  key_ok (priKey w) = true ->
  one_field_mutated (fields r) (fields r') ->
  hashed (trace (sign w r) s) <> hashed (trace (sign w r') s').
Proof.
  intros Hk Hmut. rewrite !hashed_sign, Hk. intros H.
  injection H as H. revert H. now apply message_mutated.
Qed.

(** C2, as the code has it: the message is the bare concatenation, so an
    empty seller adds nothing to it.  When the key parses, [SignBuyer]
    and [SignSeller1] on the same four fields hash the same message
    exactly when the buyer's seller field is empty. *)
Theorem buyer_message_is_seller1_message_iff_seller_empty
    (w : Wallet) (amount nftAddress exchanger blockNumber seller : string)
    (s s' : World) :
  key_ok (priKey w) = true ->
  hashed (trace (SignBuyer w amount nftAddress exchanger blockNumber seller) s)
  = hashed (trace (SignSeller1 w amount nftAddress exchanger blockNumber) s')
  <-> seller = EmptyString.
Proof.
  intros Hk.
  change (SignBuyer w amount nftAddress exchanger blockNumber seller)
    with (sign w (ReqBuyer amount nftAddress exchanger blockNumber seller)).
  change (SignSeller1 w amount nftAddress exchanger blockNumber)
    with (sign w (ReqSeller1 amount nftAddress exchanger blockNumber)).
  rewrite !hashed_sign, Hk. unfold message.
  rewrite !list_byte_of_concat. simpl. split.
  - intros H. injection H as H.
    do 4 apply app_inv_head in H.
    rewrite app_nil_r in H. now apply list_byte_of_string_inj.
  - intros ->. reflexivity.
Qed.

End Collisions.

(** ** Successful runs: the signature and the payload *)

Section Success.

Context {E : Externals}.

Lemma index_add_recovery (raw sig : bytes) :
  index_add raw 64 27 = Some sig -> recovery_plus_27 raw sig.
Proof.
  intros H. destruct (index_add_inv _ _ _ H) as (f & v & b & -> & Hf & ->).
  split; [rewrite !length_app; reflexivity|split].
  - intros i Hi. destruct (Nat.lt_ge_cases i 64) as [Hlt|Hge].
    + rewrite !nth_error_app1 by lia. reflexivity.
    + rewrite !nth_error_app2 by lia. rewrite Hf.
      destruct (i - 64)%nat as [|k] eqn:Hk; [lia|reflexivity].
  - exists v, (uint8_add v 27).
    rewrite !nth_error_app2 by lia. rewrite Hf. simpl.
    replace (64 - 64)%nat with 0%nat by lia. simpl.
    split; [reflexivity|split; [reflexivity|]].
    split; [apply uint8_add_to_N|].
    intros Hv. rewrite uint8_add_to_N, N.mod_small by lia. lia.
Qed.

Lemma signing_run_success (hexkey : string) (msg : bytes)
    (fin : bytes -> outcome (option bytes * option error) * list Call)
    (o : option bytes) :
  fst (signing_run hexkey msg fin) = Returns (o, None) ->
  exists key raw sig,
    HexToECDSA hexkey = (key, None) /\
    crypto_Sign (SignHash msg) key = (Some raw, None) /\
    index_add raw 64 27 = Some sig /\
    fst (fin sig) = Returns (o, None) /\
    snd (signing_run hexkey msg fin)
    = [CallHexToECDSA hexkey; CallSignHash msg; CallSign (SignHash msg) key]
        ++ snd (fin sig).
Proof.
  unfold signing_run.
  destruct (HexToECDSA hexkey) as [key [e|]]; simpl; [discriminate|].
  destruct (crypto_Sign (SignHash msg) key) as [[raw|] [e|]] eqn:Hs; simpl;
    try discriminate.
  destruct (index_add raw 64 27) as [sig|] eqn:Hi; simpl; try discriminate.
  intros H. exists key, raw, sig. repeat split; auto.
Qed.

Lemma finish_carries (r : SignRequest) (sig : bytes) (o : option bytes)
    (pre : list Call) :
  marshalled pre = [] ->
  fst (finish r sig) = Returns (o, None) ->
  carries r o (pre ++ snd (finish r sig)) sig.
Proof.
  intros Hpre. unfold finish, carries, finish_role.
  assert (Happ : forall post, marshalled (pre ++ post) = marshalled post).
  { intros post. unfold marshalled in *. now rewrite flat_map_app, Hpre. }
  destruct (authorization r (hexutil_Encode sig)) as [v|]; simpl;
    rewrite Happ.
  - destruct (json_Marshal v) as [res [e|]]; [discriminate|].
    intros H. now injection H as ->.
  - intros H. now injection H as <-.
Qed.

Lemma sign_success (w : Wallet) (r : SignRequest) (s : World)
    (o : option bytes) :
  result (sign w r) s = Returns (o, None) ->
  exists key raw sig,
    HexToECDSA (priKey w) = (key, None) /\
    crypto_Sign (SignHash (message r)) key = (Some raw, None) /\
    recovery_plus_27 raw sig /\
    carries r o (trace (sign w r) s) sig.
Proof.
  rewrite result_sign, trace_sign. intros H.
  destruct (signing_run_success _ _ _ H)
    as (key & raw & sig & Hk & Hs & Hi & Hf & ->).
  exists key, raw, sig.
  split; [exact Hk|split; [exact Hs|split; [now apply index_add_recovery|]]].
  now apply finish_carries.
Qed.

Lemma Sign_success (w : Wallet) (data : bytes) (hexkey : string) (s : World)
    (o : option bytes) :
  result (Sign w data hexkey) s = Returns (o, None) ->
  exists key raw sig,
    HexToECDSA hexkey = (key, None) /\
    crypto_Sign (SignHash data) key = (Some raw, None) /\
    recovery_plus_27 raw sig /\ o = Some sig.
Proof.
  rewrite result_Sign. intros H.
  destruct (signing_run_success _ _ _ H)
    as (key & raw & sig & Hk & Hs & Hi & Hf & _).
  exists key, raw, sig.
  split; [exact Hk|split; [exact Hs|split; [now apply index_add_recovery|]]].
  simpl in Hf. now injection Hf as <-.
Qed.

(** C4.  A successful signing operation returns the primitive's signature
    with 27 added to the byte at index 64 and every other byte as it was:
    a raw recovery id 0 or 1 comes back as 27 or 28.  [Sign] returns the
    signature itself; the role operations carry it, hex-encoded, in
    their payload. *)
Theorem recovery_byte_normalized
    (w : Wallet) (r : SignRequest) (data : bytes) (hexkey : string)
    (s : World) (o : option bytes) :
  (result (sign w r) s = Returns (o, None) ->
   exists key raw sig,
     HexToECDSA (priKey w) = (key, None) /\
     crypto_Sign (SignHash (message r)) key = (Some raw, None) /\
     recovery_plus_27 raw sig /\
     carries r o (trace (sign w r) s) sig)
  /\ (result (Sign w data hexkey) s = Returns (o, None) ->
      exists key raw sig,
        HexToECDSA hexkey = (key, None) /\
        crypto_Sign (SignHash data) key = (Some raw, None) /\
        recovery_plus_27 raw sig /\ o = Some sig).
Proof. split; [apply sign_success|apply Sign_success]. Qed.

End Success.

(** ** The authorization payload *)

Section Payloads.

Context {E : Externals}.

Lemma authorization_entries (r : SignRequest) (sig : string) (v : any) :
  authorization r sig = Some v ->
  entries v
  = combine (declared_names (role r)) (fields r) ++ [("Sig"%string, sig)].
Proof.
  destruct r; simpl; intros H; try discriminate; injection H as <-;
    reflexivity.
Qed.

Lemma authorization_role (r : SignRequest) (sig : string) :
  authorization r sig = None <-> role r = Delegate.
Proof. destruct r; simpl; split; intros H; congruence. Qed.

(** C7.  When the key string does not parse, every signing operation
    returns that error with a nil payload, after the one call to
    [crypto.HexToECDSA] and no other. *)
Theorem malformed_key_error_propagates
    (w : Wallet) (r : SignRequest) (data : bytes) (hexkey : string)
    (s : World) (e : error) :
  (snd (HexToECDSA (priKey w)) = Some e ->
   result (sign w r) s = Returns (None, Some e) /\
   trace (sign w r) s = [CallHexToECDSA (priKey w)])
  /\ (snd (HexToECDSA hexkey) = Some e ->
      result (Sign w data hexkey) s = Returns (None, Some e) /\
      trace (Sign w data hexkey) s = [CallHexToECDSA hexkey]).
Proof.
  split; intros H.
  - rewrite result_sign, trace_sign. unfold signing_run.
    destruct (HexToECDSA (priKey w)) as [key err]. simpl in H.
    now subst err.
  - rewrite result_Sign, trace_Sign. unfold signing_run.
    destruct (HexToECDSA hexkey) as [key err]. simpl in H.
    now subst err.
Qed.

End Payloads.

(** ** The pointer-returning queries *)

Section Queries.

Context {E : Externals}.

Lemma c_CallContext_run (k : rkind) (cl : Client) (method : string)
    (args : list rpcArg) (s : World) :
  c_CallContext k (Some cl) method args s
  = (Returns (fst (CallContext k cl method args (node s))),
     mkWorld (snd (CallContext k cl method args (node s)))
             (calls s ++ [CallRpc k method args])).
Proof.
  unfold c_CallContext, bind, record. simpl.
  now destruct (CallContext k cl method args (node s)).
Qed.

Lemma query_run (k : rkind) (worm : Wormholes) (method : string)
    (args : list rpcArg) (s : World) :
  result
    ('(r, err) <- c_CallContext k (c worm) method args ;;
     match err, r with
     | None, None => ret (None, Some NotFound)
     | _, _ => ret (r, err)
     end) s
  = match c worm with
    | None => Panics
    | Some cl =>
        Returns (not_found_if_null
                   (fst (CallContext k cl method args (node s))))
    end.
Proof.
  unfold result, bind. destruct (c worm) as [cl|]; [|reflexivity].
  rewrite c_CallContext_run.
  now destruct (fst (CallContext k cl method args (node s)))
    as [[r|] [e|]].
Qed.

Lemma not_found_if_null_nil_nil {A} (reply : option A * option error) :
  not_found_if_null reply <> (None, None).
Proof. now destruct reply as [[r|] [e|]]. Qed.

(** C8.  On a connected client, with the reply of the node in hand:
    [TransactionReceipt] returns [ethereum.NotFound] exactly when the
    call came back without error and with a null receipt; a failed call's
    error comes back as it is, with whatever the call left in the
    result; a receipt comes back with a nil error.  The RPC layer does
    not hand out the sentinel itself. *)
Theorem receipt_not_found_iff_null_reply
    (worm : Wormholes) (txHash : string) (s : World) (cl : Client)
    (r : option Receipt) (err : option error) (n : Node) :
  c worm = Some cl ->
  CallContext KReceipt cl "eth_getTransactionReceipt"
    [ArgHash (HexToHash txHash)] (node s) = ((r, err), n) ->
  err <> Some NotFound ->
  exists (r' : option Receipt) (err' : option error),
    result (TransactionReceipt worm txHash) s = Returns (r', err') /\
    (err = None -> r = None -> r' = None /\ err' = Some NotFound) /\
    (err' = Some NotFound -> err = None /\ r = None) /\
    (forall e : error, err = Some e -> r' = r /\ err' = Some e) /\
    (err = None -> r <> None -> r' = r /\ err' = None).
Proof.
  intros Hc Hcall Hrpc.
  rewrite (query_run KReceipt worm "eth_getTransactionReceipt"
             [ArgHash (HexToHash txHash)] s
           : result (TransactionReceipt worm txHash) s = _).
  rewrite Hc, Hcall. simpl.
  destruct r as [rc|], err as [e|]; simpl; eexists; eexists;
    (split; [reflexivity|]);
    (split; [intros Hnil Hnull
            |split; [intros Hnf
                    |split; [intros e' He|intros Hnil Hsome]]]);
    try congruence; auto.
Qed.

(** C10.  [GetValidators], [GetAccountInfo] and
    [GetBlockBeneficiaryAddressByNumber] never return a nil result with a
    nil error; a reply without error and with a null result comes back
    as [ethereum.NotFound]. *)
Theorem queries_never_nil_nil
    (worm : Wormholes) (address : string) (block : Z) (s : World) :
  nil_nil (result (GetValidators worm block) s) = false
  /\ nil_nil (result (GetAccountInfo worm address block) s) = false
  /\ nil_nil (result (GetBlockBeneficiaryAddressByNumber worm block) s)
     = false
  /\ (forall (cl : Client) (n : Node),
        c worm = Some cl ->
        CallContext KValidatorList cl "eth_getValidator"
          [ArgBlockNumber block] (node s) = ((None, None), n) ->
        result (GetValidators worm block) s = Returns (None, Some NotFound))
  /\ (forall (cl : Client) (n : Node),
        c worm = Some cl ->
        CallContext KAccount cl "eth_getAccountInfo"
          [ArgAddress (HexToAddress address); ArgBlockNumberOrHash block]
          (node s) = ((None, None), n) ->
        result (GetAccountInfo worm address block) s
        = Returns (None, Some NotFound))
  /\ (forall (cl : Client) (n : Node),
        c worm = Some cl ->
        CallContext KBeneficiaryAddressList cl
          "eth_getBlockBeneficiaryAddressByNumber"
          [ArgBlockNumber block; ArgBool true] (node s) = ((None, None), n) ->
        result (GetBlockBeneficiaryAddressByNumber worm block) s
        = Returns (None, Some NotFound)).
Proof.
  rewrite (query_run KValidatorList worm "eth_getValidator"
             [ArgBlockNumber block] s
           : result (GetValidators worm block) s = _).
  rewrite (query_run KAccount worm "eth_getAccountInfo"
             [ArgAddress (HexToAddress address); ArgBlockNumberOrHash block] s
           : result (GetAccountInfo worm address block) s = _).
  rewrite (query_run KBeneficiaryAddressList worm
             "eth_getBlockBeneficiaryAddressByNumber"
             [ArgBlockNumber block; ArgBool true] s
           : result (GetBlockBeneficiaryAddressByNumber worm block) s = _).
  repeat split;
    try (destruct (c worm) as [cl|]; [|reflexivity]; unfold nil_nil;
         match goal with
         | |- context [not_found_if_null ?x] =>
             pose proof (not_found_if_null_nil_nil x) as Hx;
             destruct (not_found_if_null x) as [[a|] [e|]]; congruence
         end);
    intros cl n Hc Hcall; now rewrite Hc, Hcall.
Qed.

End Queries.

(** ** Signing and the connection *)

Section Purity.

Context {E : Externals}.

Lemma NewClient_wallet (k rawurl : string) (s s' : World) (worm : Wormholes) :
  NewClient k rawurl s = (Returns worm, s') -> wallet worm = mkWallet k.
Proof.
  unfold NewClient.
  destruct (rawurl =? EmptyString)%string.
  - unfold ret. intros H. inversion H. reflexivity.
  - unfold rpc_Dial_, bind, record, ret, log_Fatalf. simpl.
    destruct (rpc_Dial rawurl (node s)) as [[cl [e|]] n]; [discriminate|].
    intros H. inversion H. reflexivity.
Qed.

Lemma remote_signing_run (hexkey : string) (msg : bytes)
    (fin : bytes -> outcome (option bytes * option error) * list Call) :
  (forall sig, remote (snd (fin sig)) = []) ->
  remote (snd (signing_run hexkey msg fin)) = [].
Proof.
  intros Hfin. unfold signing_run.
  destruct (HexToECDSA hexkey) as [key [e|]]; [reflexivity|].
  destruct (crypto_Sign (SignHash msg) key) as [sg [e|]]; [reflexivity|].
  destruct (match sg with Some raw => index_add raw 64 27 | None => None end)
    as [sig|]; [|reflexivity].
  simpl. apply Hfin.
Qed.

Lemma remote_finish (r : SignRequest) (sig : bytes) :
  remote (snd (finish r sig)) = [].
Proof. unfold finish. now destruct (authorization r (hexutil_Encode sig)). Qed.

(** C9.  A signing operation is a function of the key string and its
    arguments: whatever the world it runs in, and whether the client was
    built with a URL or, wallet-only, without one, it returns the same
    payload after the same calls, makes no call to the node and leaves the
    node as it was. *)
Theorem signing_ignores_connection
    (k rawurl : string) (r : SignRequest) (data : bytes) (hexkey : string)
    (s0 s0' s1 s2 : World) (worm : Wormholes) :
  NewClient k rawurl s0 = (Returns worm, s0') ->
  NewClient k EmptyString s2
  = (Returns (mkWormholes (mkWallet k) None), s2)
  /\ result (sign (wallet worm) r) s1 = result (sign (mkWallet k) r) s2
  /\ trace (sign (wallet worm) r) s1 = trace (sign (mkWallet k) r) s2
  /\ remote (trace (sign (wallet worm) r) s1) = []
  /\ node (snd (sign (wallet worm) r s1)) = node s1
  /\ result (Sign (wallet worm) data hexkey) s1
     = result (Sign (mkWallet k) data hexkey) s2
  /\ trace (Sign (wallet worm) data hexkey) s1
     = trace (Sign (mkWallet k) data hexkey) s2
  /\ remote (trace (Sign (wallet worm) data hexkey) s1) = []
  /\ node (snd (Sign (wallet worm) data hexkey s1)) = node s1.
Proof.
  intros Hnew. rewrite (NewClient_wallet _ _ _ Hnew).
  rewrite !result_sign, !trace_sign, !result_Sign, !trace_Sign.
  rewrite sign_run, Sign_run. simpl.
  repeat split;
    auto using remote_signing_run, remote_finish.
Qed.

End Purity.

(** ** Runs on the reference instance

    The inputs are those of the repository's tests: the exchange signs a
    buyer and a seller authorization over the same four fields with one
    key, and a delegate signature over ["address"] and
    ["pledgeAccount"]. *)

Import Demo.

Lemma sign_det_contract (d : bytes) (k : option bytes) :
  sign_contract (E:=externals) d k.
Proof.
  unfold sign_contract. simpl. unfold sign_det. intros sg.
  destruct k as [k|]; [|discriminate].
  destruct (List.length d =? 32)%nat eqn:Hd; [|discriminate].
  apply Nat.eqb_eq in Hd. intros H. injection H as <-.
  eexists (d ++ pad32 k), _. rewrite <- app_assoc.
  split; [reflexivity|split].
  - unfold pad32. rewrite length_app, length_firstn, length_app, repeat_length.
    lia.
  - destruct (N.odd (Byte.to_N (hd x00 d))); auto.
Qed.

(** C2 fails on the code: with an empty seller, the buyer's message is the
    seller's. *)
Lemma empty_seller_same_message :
  ~ (hashed (trace (SignBuyer wl amount nft1 exchangeAddress "0x6000"
                      EmptyString) world0)
     <> hashed (trace (SignSeller1 wl amount nft1 exchangeAddress "0x6000")
                  world0)).
Proof. intros H. apply H. vm_compute. reflexivity. Qed.

Lemma buyer_message_is_seller1_message_witness :
  hashed (trace (SignBuyer wl amount nft1 exchangeAddress "0x6000"
                   EmptyString) world0)
  = hashed (trace (SignSeller1 wl amount nft1 exchangeAddress "0x6000")
              world0).
Proof.
  apply (buyer_message_is_seller1_message_iff_seller_empty
           wl amount nft1 exchangeAddress "0x6000" EmptyString
           world0 world0).
  - vm_compute. reflexivity.
  - reflexivity.
Defined.

(** The scenario of the specification: seller empty against seller
    ["0x00"]; and a royalty ["0xa"] against ["0x0a"]. *)
Lemma one_field_changes_message_witness :
  hashed (trace (sign wl (ReqBuyer amount nft2 exchanger "0x677" EmptyString))
            world0)
  <> hashed (trace (sign wl (ReqBuyer amount nft2 exchanger "0x677" "0x00"))
               world0)
  /\ hashed (trace (sign wl (ReqSeller2 "0x38D7EA4C68000" "0xa"
                               "/ipfs/qqqqqqqqqq" "0" exchanger "0x677"))
               world0)
     <> hashed (trace (sign wl (ReqSeller2 "0x38D7EA4C68000" "0x0a"
                                  "/ipfs/qqqqqqqqqq" "0" exchanger "0x677"))
                  world0).
Proof.
  split; apply one_field_changes_message; try (vm_compute; reflexivity).
  - exists [amount; nft2; exchanger; "0x677"%string], EmptyString,
      "0x00"%string, [].
    repeat split. discriminate.
  - exists ["0x38D7EA4C68000"%string], "0xa"%string, "0x0a"%string,
      ["/ipfs/qqqqqqqqqq"; "0"; exchanger; "0x677"]%string.
    repeat split. discriminate.
Defined.

Lemma recovery_byte_normalized_witness :
  (exists key raw sig,
      HexToECDSA (priKey wl) = (key, None) /\
      crypto_Sign (SignHash (message delegate_request)) key
      = (Some raw, None) /\
      recovery_plus_27 raw sig /\
      carries delegate_request
        (Some (list_byte_of_string delegate_text))
        (trace (sign wl delegate_request) world0) sig)
  /\ (exists key raw sig,
         HexToECDSA buyerPriKey = (key, None) /\
         crypto_Sign (SignHash hello) key = (Some raw, None) /\
         recovery_plus_27 raw sig /\ Some hello_signature = Some sig).
Proof.
  split.
  - apply (proj1 (recovery_byte_normalized wl delegate_request hello
                    buyerPriKey world0
                    (Some (list_byte_of_string delegate_text)))).
    vm_compute. reflexivity.
  - apply (proj2 (recovery_byte_normalized wl delegate_request hello
                    buyerPriKey world0 (Some hello_signature))).
    vm_compute. reflexivity.
Defined.

(** C6 fails on the code: [SignDelegate] hands nothing to [json.Marshal]
    and returns the signature's text, which no struct marshals to. *)
Lemma delegate_payload_is_bare_signature :
  result (SignDelegate wl "address" "pledgeAccount") world0
  = Returns (Some (list_byte_of_string delegate_text), None)
  /\ marshalled (trace (SignDelegate wl "address" "pledgeAccount") world0)
     = []
  /\ forall v : any,
       json_Marshal v <> (Some (list_byte_of_string delegate_text), None).
Proof.
  split; [vm_compute; reflexivity|split; [vm_compute; reflexivity|]].
  intros v H. simpl in H. unfold marshal in H.
  injection H as H. discriminate H.
Qed.

Lemma malformed_key_error_propagates_witness :
  (result (sign (mkWallet exchangeAddress1) buyer_request) world0
   = Returns (None, Some "invalid length, need 256 bits"%string)
   /\ trace (sign (mkWallet exchangeAddress1) buyer_request) world0
      = [CallHexToECDSA exchangeAddress1])
  /\ (result (Sign wl hello exchangeAddress1) world0
      = Returns (None, Some "invalid length, need 256 bits"%string)
      /\ trace (Sign wl hello exchangeAddress1) world0
         = [CallHexToECDSA exchangeAddress1]).
Proof.
  split.
  - apply (proj1 (malformed_key_error_propagates
                    (mkWallet exchangeAddress1) buyer_request hello
                    exchangeAddress1 world0
                    "invalid length, need 256 bits"%string)).
    vm_compute. reflexivity.
  - apply (proj2 (malformed_key_error_propagates
                    wl buyer_request hello exchangeAddress1 world0
                    "invalid length, need 256 bits"%string)).
    vm_compute. reflexivity.
Defined.

(** A receipt asked for a hash the node has not mined. *)
Lemma receipt_not_found_iff_null_reply_witness :
  result (TransactionReceipt worm "0xc9c4e6652ba411a0") world0
  = Returns (None, Some NotFound).
Proof.
  destruct (receipt_not_found_iff_null_reply
              worm "0xc9c4e6652ba411a0" world0 (cl:=endpoint)
              (r:=None) (err:=None) (n:=[]))
    as (r' & err' & Hres & Hnull & _).
  - reflexivity.
  - vm_compute. reflexivity.
  - discriminate.
  - destruct (Hnull eq_refl eq_refl) as [-> ->]. exact Hres.
Defined.

Lemma queries_never_nil_nil_witness :
  result (GetValidators worm 1655) world0 = Returns (None, Some NotFound)
  /\ result (GetAccountInfo worm exchangeAddress 1655) world0
     = Returns (None, Some NotFound)
  /\ result (GetBlockBeneficiaryAddressByNumber worm 1655) world0
     = Returns (None, Some NotFound).
Proof.
  destruct (queries_never_nil_nil worm exchangeAddress 1655 world0)
    as (_ & _ & _ & Hv & Ha & Hb).
  split; [|split].
  - apply (Hv endpoint []); [reflexivity|vm_compute; reflexivity].
  - apply (Ha endpoint []); [reflexivity|vm_compute; reflexivity].
  - apply (Hb endpoint []); [reflexivity|vm_compute; reflexivity].
Defined.

(** The connected client of the tests signs as the wallet-only one. *)
Lemma signing_ignores_connection_witness :
  NewClient exchangerPriKey1 EmptyString world0
  = (Returns (mkWormholes wl None), world0)
  /\ result (sign (wallet worm) buyer_request)
       (mkWorld (E:=externals) [] [CallDial endpoint])
     = result (sign wl buyer_request) world0
  /\ trace (sign (wallet worm) buyer_request)
       (mkWorld (E:=externals) [] [CallDial endpoint])
     = trace (sign wl buyer_request) world0.
Proof.
  destruct (@signing_ignores_connection externals
              exchangerPriKey1 endpoint buyer_request hello buyerPriKey
              world0 (mkWorld (E:=externals) [] [CallDial endpoint])
              (mkWorld (E:=externals) [] [CallDial endpoint]) world0 worm)
    as (Hnew & Hres & Htr & _).
  - vm_compute. reflexivity.
  - exact (conj Hnew (conj Hres Htr)).
Defined.

(** * Further properties of the signing operations *)

Section SigningMore.

Context {E : Externals}.

Lemma index_add_None (n : N) (i : nat) :
  forall s : bytes, index_add s i n = None <-> (List.length s <= i)%nat.
Proof.
  induction i as [|i IH]; intros [|b r]; simpl.
  - split; auto.
  - split; [discriminate|lia].
  - split; [lia|auto].
  - rewrite <- Nat.succ_le_mono, <- IH.
    destruct (index_add r i n); simpl; split; intros H;
      try discriminate H; reflexivity.
Qed.

Lemma finish_returns (r : SignRequest) (sig : bytes) :
  exists p, fst (finish r sig) = Returns p.
Proof.
  unfold finish, finish_role.
  destruct (authorization r (hexutil_Encode sig)); simpl; eauto.
Qed.

(** X1.  A role operation is [Sign] on the concatenated fields with the
    stored key, plus packaging: where [Sign] fails or panics so does the
    role operation, with the same error; where [Sign] returns a signature,
    the role operation returns its hex text, alone for the delegate and
    inside the one marshalled struct for the others. *)
Theorem role_operation_is_Sign_then_packaging
    (w w' : Wallet) (r : SignRequest) (s s' : World) :
  match result (Sign w' (message r) (priKey w)) s' with
  | Returns (Some sig, None) =>
      match authorization r (hexutil_Encode sig) with
      | Some v =>
          marshalled (trace (sign w r) s) = [v] /\
          result (sign w r) s
          = Returns match json_Marshal v with
                    | (_, Some e) => (None, Some e)
                    | (res, None) => (res, None)
                    end
      | None =>
          marshalled (trace (sign w r) s) = [] /\
          result (sign w r) s
          = Returns (Some (list_byte_of_string (hexutil_Encode sig)), None)
      end
  | other => result (sign w r) s = other
  end.
Proof.
  rewrite result_Sign, result_sign, trace_sign. unfold signing_run.
  destruct (HexToECDSA (priKey w)) as [key [e|]]; simpl; [reflexivity|].
  destruct (crypto_Sign (SignHash (message r)) key) as [[raw|] [e|]]; simpl;
    try reflexivity.
  destruct (index_add raw 64 27) as [sig|]; simpl; [|reflexivity].
  unfold finish, finish_role.
  destruct (authorization r (hexutil_Encode sig)) as [v|]; simpl; auto.
Qed.

(** X2.  The signature depends on the concatenation only.  Two requests,
    of the same role or not, whose fields concatenate to the same string
    have the same digest signed, and when both succeed their payloads
    carry the same signature. *)
Theorem equal_concatenation_same_signature
    (w : Wallet) (r r' : SignRequest) (s s' : World) (o o' : option bytes) :
  String.concat EmptyString (fields r) = String.concat EmptyString (fields r') ->
  signed (trace (sign w r) s) = signed (trace (sign w r') s')
  /\ (result (sign w r) s = Returns (o, None) ->
      result (sign w r') s' = Returns (o', None) ->
      exists sig : bytes,
        carries r o (trace (sign w r) s) sig /\
        carries r' o' (trace (sign w r') s') sig).
Proof.
  intros Hcat.
  assert (Hm : message r = message r') by (unfold message; now rewrite Hcat).
  split.
  - rewrite !trace_sign, !signed_signing_run. now rewrite Hm.
  - rewrite !result_sign, !trace_sign. intros H H'.
    destruct (signing_run_success _ _ _ H)
      as (key & raw & sig & Hk & Hs & Hi & Hf & ->).
    destruct (signing_run_success _ _ _ H')
      as (key' & raw' & sig' & Hk' & Hs' & Hi' & Hf' & ->).
    rewrite Hk in Hk'. injection Hk' as <-.
    rewrite Hm, Hs' in Hs. injection Hs as <-.
    rewrite Hi' in Hi. injection Hi as <-.
    exists sig'. split; now apply finish_carries.
Qed.

(** X3.  The one way a signing operation panics is [signature[64]]: it
    panics exactly when the key parses and [crypto.Sign] returns, without
    error, a nil signature or one of 64 bytes or fewer.  It never ends the
    process. *)
Theorem signing_panics_iff_short_signature
    (w : Wallet) (r : SignRequest) (data : bytes) (hexkey : string)
    (s : World) :
  (result (sign w r) s = Panics <->
   exists key sg,
     HexToECDSA (priKey w) = (key, None) /\
     crypto_Sign (SignHash (message r)) key = (sg, None) /\
     match sg with
     | Some raw => (List.length raw <= 64)%nat
     | None => True
     end)
  /\ (result (Sign w data hexkey) s = Panics <->
      exists key sg,
        HexToECDSA hexkey = (key, None) /\
        crypto_Sign (SignHash data) key = (sg, None) /\
        match sg with
        | Some raw => (List.length raw <= 64)%nat
        | None => True
        end)
  /\ result (sign w r) s <> Exits
  /\ result (Sign w data hexkey) s <> Exits.
Proof.
  rewrite result_sign, result_Sign.
  assert (Hgen : forall hk msg fin,
             (forall sig, exists p, fst (fin sig) = Returns p) ->
             (fst (signing_run hk msg fin) = Panics <->
              exists key sg,
                HexToECDSA hk = (key, None) /\
                crypto_Sign (SignHash msg) key = (sg, None) /\
                match sg with
                | Some raw => (List.length raw <= 64)%nat
                | None => True
                end)
             /\ fst (signing_run hk msg fin) <> Exits).
  { intros hk msg fin Hfin. unfold signing_run.
    destruct (HexToECDSA hk) as [key [e|]]; simpl.
    { split; [split; [discriminate|]|discriminate].
      intros (k' & sg & Hk & _). discriminate. }
    destruct (crypto_Sign (SignHash msg) key) as [sg [e|]] eqn:Hs; simpl.
    { split; [split; [discriminate|]|discriminate].
      intros (k' & sg' & Hk & Hs' & _). injection Hk as <-.
      rewrite Hs in Hs'. discriminate. }
    destruct sg as [raw|]; simpl.
    - destruct (index_add raw 64 27) as [sig|] eqn:Hi; simpl.
      + destruct (Hfin sig) as [p Hp]. rewrite Hp.
        split; [split; [discriminate|]|discriminate].
        intros (k' & sg' & Hk & Hs' & Hlen). injection Hk as <-.
        rewrite Hs in Hs'. injection Hs' as <-.
        apply (index_add_None 27) in Hlen. congruence.
      + split; [split; [intros _|reflexivity]|discriminate].
        exists key, (Some raw). repeat split; auto.
        now apply (index_add_None 27).
    - split; [split; [intros _|reflexivity]|discriminate].
      exists key, None. now repeat split. }
  destruct (Hgen (priKey w) (message r) (finish r) (finish_returns r))
    as [H1 H2].
  destruct (Hgen hexkey data finish_Sign) as [H3 H4].
  { intros sig. unfold finish_Sign. simpl. eauto. }
  auto.
Qed.

(** X4.  No signing operation returns a payload next to an error; [Sign]
    and [SignDelegate] return exactly one of the two. *)
Theorem signing_payload_or_error
    (w : Wallet) (r : SignRequest) (data : bytes) (hexkey : string)
    (s : World) :
  not_both (result (sign w r) s) = true
  /\ value_xor_error (result (Sign w data hexkey) s) = true
  /\ (forall address pledgeAcoount : string,
        value_xor_error (result (SignDelegate w address pledgeAcoount) s)
        = true).
Proof.
  split; [|split].
  - rewrite result_sign. unfold signing_run.
    destruct (HexToECDSA (priKey w)) as [key [e|]]; [reflexivity|].
    destruct (crypto_Sign (SignHash (message r)) key) as [[raw|] [e|]];
      try reflexivity.
    destruct (index_add raw 64 27) as [sig|]; [|reflexivity].
    unfold finish, finish_role. simpl.
    destruct (authorization r (hexutil_Encode sig)) as [v|]; [|reflexivity].
    simpl. now destruct (json_Marshal v) as [[res|] [e|]].
  - rewrite result_Sign. unfold signing_run.
    destruct (HexToECDSA hexkey) as [key [e|]]; [reflexivity|].
    destruct (crypto_Sign (SignHash data) key) as [[raw|] [e|]];
      try reflexivity.
    now destruct (index_add raw 64 27).
  - intros a p.
    change (SignDelegate w a p) with (sign w (ReqDelegate a p)).
    rewrite result_sign. unfold signing_run.
    destruct (HexToECDSA (priKey w)) as [key [e|]]; [reflexivity|].
    destruct (crypto_Sign (SignHash (message (ReqDelegate a p))) key)
      as [[raw|] [e|]]; try reflexivity.
    now destruct (index_add raw 64 27).
Qed.

(** X5.  An error of [crypto.Sign] comes back unchanged with a nil payload
    and nothing is marshalled; an error of [json.Marshal] comes back
    unchanged with a nil payload, whatever bytes came with it. *)
Theorem sign_and_marshal_errors_propagate
    (w : Wallet) (r : SignRequest) (data : bytes) (hexkey : string)
    (s : World) (key : option PrivateKey) (e : error) :
  (forall sg,
      HexToECDSA (priKey w) = (key, None) ->
      crypto_Sign (SignHash (message r)) key = (sg, Some e) ->
      result (sign w r) s = Returns (None, Some e) /\
      marshalled (trace (sign w r) s) = [])
  /\ (forall sg,
         HexToECDSA hexkey = (key, None) ->
         crypto_Sign (SignHash data) key = (sg, Some e) ->
         result (Sign w data hexkey) s = Returns (None, Some e))
  /\ (forall v res,
         marshalled (trace (sign w r) s) = [v] ->
         json_Marshal v = (res, Some e) ->
         result (sign w r) s = Returns (None, Some e)).
Proof.
  split; [|split].
  - intros sg Hk Hs. rewrite result_sign, trace_sign. unfold signing_run.
    now rewrite Hk, Hs.
  - intros sg Hk Hs. rewrite result_Sign. unfold signing_run.
    now rewrite Hk, Hs.
  - intros v res. rewrite result_sign, trace_sign. unfold signing_run.
    destruct (HexToECDSA (priKey w)) as [k [e0|]]; [discriminate|].
    destruct (crypto_Sign (SignHash (message r)) k) as [[raw|] [e0|]];
      try discriminate.
    destruct (index_add raw 64 27) as [sig|]; [|discriminate].
    unfold finish, finish_role. simpl.
    destruct (authorization r (hexutil_Encode sig)) as [v0|]; simpl;
      [|discriminate].
    intros Hm Hj. injection Hm as ->. now rewrite Hj.
Qed.

End SigningMore.

(** * Block selectors and number formatting *)

Lemma hex_text_inj (p q : positive) : hex_text p = hex_text q -> p = q.
Proof.
  unfold hex_text. intros H.
  apply HexadecimalPos.Unsigned.to_uint_inj.
  apply (f_equal HexadecimalString.NilEmpty.uint_of_string) in H.
  rewrite !HexadecimalString.NilEmpty.usu in H. now injection H.
Qed.

Lemma hex_text_not_zero (p : positive) : hex_text p <> "0"%string.
Proof.
  unfold hex_text. intros H.
  apply (HexadecimalPos.Unsigned.to_uint_nonzero p).
  apply (f_equal HexadecimalString.NilEmpty.uint_of_string) in H.
  rewrite HexadecimalString.NilEmpty.usu in H. simpl in H. now injection H.
Qed.


Lemma hexutil_EncodeBig_inj (a b : Z) :
  hexutil_EncodeBig a = hexutil_EncodeBig b -> a = b.
Proof.
  destruct a as [|p|p], b as [|q|q]; simpl; intros H; try reflexivity;
    try discriminate H; injection H as H.
  - symmetry in H. now apply hex_text_not_zero in H.
  - now apply hex_text_not_zero in H.
  - f_equal. now apply hex_text_inj.
  - f_equal. now apply hex_text_inj.
Qed.

Lemma toBlockNumArg_number (n : Z) :
  n <> (-1)%Z -> toBlockNumArg (Some n) = hexutil_EncodeBig n.
Proof.
  intros Hn. unfold toBlockNumArg. cbv zeta.
  destruct (n ?= -1)%Z eqn:Hc; try reflexivity.
  apply Z.compare_eq in Hc. contradiction.
Qed.

Lemma hexutil_EncodeBig_not_tag (n : Z) :
  hexutil_EncodeBig n <> "latest"%string /\
  hexutil_EncodeBig n <> "pending"%string.
Proof. destruct n; simpl; split; discriminate. Qed.

Lemma toBlockNumArg_distinct (a b : bigInt) :
  a <> b -> toBlockNumArg a <> toBlockNumArg b.
Proof.
  intros Hab H. apply Hab. clear Hab.
  assert (Hp : toBlockNumArg (Some (-1)%Z) = "pending"%string)
    by reflexivity.
  destruct a as [x|], b as [y|]; try reflexivity.
  - destruct (Z.eq_dec x (-1)) as [->|Hx], (Z.eq_dec y (-1)) as [->|Hy];
      try reflexivity.
    + rewrite Hp, (toBlockNumArg_number Hy) in H.
      symmetry in H. now apply hexutil_EncodeBig_not_tag in H.
    + rewrite Hp, (toBlockNumArg_number Hx) in H.
      now apply hexutil_EncodeBig_not_tag in H.
    + rewrite (toBlockNumArg_number Hx), (toBlockNumArg_number Hy) in H.
      f_equal. now apply hexutil_EncodeBig_inj.
  - destruct (Z.eq_dec x (-1)) as [->|Hx]; [discriminate H|].
    rewrite (toBlockNumArg_number Hx) in H.
    now apply hexutil_EncodeBig_not_tag in H.
  - destruct (Z.eq_dec y (-1)) as [->|Hy]; [discriminate H|].
    rewrite (toBlockNumArg_number Hy) in H. symmetry in H.
    now apply hexutil_EncodeBig_not_tag in H.
Qed.

Lemma hex_text_canonical (p : positive) :
  hex_text p
  = HexadecimalString.NilZero.string_of_uint (N.to_hex_uint (Npos p)).
Proof.
  unfold hex_text. simpl.
  pose proof (HexadecimalPos.Unsigned.to_uint_nonnil p) as Hp.
  now destruct (Pos.to_hex_uint p).
Qed.

(** X6.  [toBlockNumArg] gives the nil number the tag ["latest"], the
    number -1 the tag ["pending"], a number from 0 up its canonical
    lower-case hex text after [0x], a number below -1 the hex text of
    its magnitude after [-0x]; and it never maps two block selectors to
    one string. *)
Theorem toBlockNumArg_injective (a b : bigInt) (n : Z) :
  (a <> b -> toBlockNumArg a <> toBlockNumArg b)
  /\ toBlockNumArg None = "latest"%string
  /\ toBlockNumArg (Some (-1)%Z) = "pending"%string
  /\ ((0 <= n)%Z ->
      toBlockNumArg (Some n)
      = ("0x" ++ HexadecimalString.NilZero.string_of_uint
                   (N.to_hex_uint (Z.to_N n)))%string)
  /\ ((n < -1)%Z ->
      toBlockNumArg (Some n)
      = ("-0x" ++ HexadecimalString.NilZero.string_of_uint
                    (N.to_hex_uint (Z.to_N (- n))))%string).
Proof.
  split; [apply toBlockNumArg_distinct|].
  split; [reflexivity|split; [reflexivity|split]]; intros Hn;
    rewrite toBlockNumArg_number by lia;
    destruct n as [|p|p]; try lia; try reflexivity; simpl;
    now rewrite hex_text_canonical.
Qed.

Lemma int64_of_uint64_wraps (n : Z) :
  (0 <= n < 2 ^ 64)%Z ->
  int64_of_uint64 n = if (n <? 2 ^ 63)%Z then n else (n - 2 ^ 64)%Z.
Proof.
  intros Hn. unfold int64_of_uint64.
  destruct (n <? 2 ^ 63)%Z eqn:Hlt.
  - apply Z.ltb_lt in Hlt. rewrite Z.mod_small; lia.
  - apply Z.ltb_ge in Hlt.
    replace (n + 2 ^ 63)%Z with ((n - 2 ^ 63) + 1 * 2 ^ 64)%Z by lia.
    rewrite Z.mod_add by lia. rewrite Z.mod_small; lia.
Qed.



Lemma decimal_digits_print (m : N) :
  decimal_digits (DecimalString.NilZero.string_of_uint (N.to_uint m))
  = Some m.
Proof.
  unfold decimal_digits.
  rewrite DecimalString.NilZero.usu.
  - simpl. now rewrite DecimalN.Unsigned.of_to.
  - destruct m; [discriminate|]. apply DecimalPos.Unsigned.to_uint_nonnil.
Qed.

Lemma big_SetString_10_print (m : N) :
  big_SetString_10 (DecimalString.NilZero.string_of_uint (N.to_uint m))
  = Some (Z.of_N m).
Proof.
  pose proof (decimal_digits_print m) as H.
  assert (Hnn : N.to_uint m <> Decimal.Nil)
    by (destruct m; [discriminate|apply DecimalPos.Unsigned.to_uint_nonnil]).
  unfold big_SetString_10.
  destruct (N.to_uint m) as [|d|d|d|d|d|d|d|d|d|d]; try contradiction;
    unfold DecimalString.NilZero.string_of_uint in *;
    cbn [DecimalString.NilEmpty.string_of_uint] in *;
    now rewrite H.
Qed.

(** * The remaining node operations *)

Section NodeProperties.

Context {E : Externals} {X : NodeExternals}.

Ltac hrun :=
  unfold resultH, sent, printed, bindH, retH, panicH, fmt_Println,
    c_CallContextInto; simpl.

(** X7.  [Balance] is [BalanceAt] at block -1, the pending state; a nil
    block number asks for ["latest"]; and, on a connected client, two
    different block numbers never send the same request. *)
Theorem BalanceAt_selects_the_block
    (worm : Wormholes) (account : string) (a b : bigInt) (h : Host) :
  Balance worm account h = BalanceAt worm account (Some (-1)%Z) h
  /\ (forall cl : Client,
        c worm = Some cl ->
        sent (BalanceAt worm account None) h
        = [RpcCall OBig "eth_getBalance"
             [ParamAddress (HexToAddress account); ParamString "latest"]])
  /\ (forall cl : Client,
        c worm = Some cl -> a <> b ->
        sent (BalanceAt worm account a) h
        <> sent (BalanceAt worm account b) h).
Proof.
  split; [reflexivity|split].
  - intros cl Hc. unfold BalanceAt. hrun. rewrite Hc.
    destruct (CallContextInto _ _ _ _ _) as [[r err] n]. simpl.
    apply skipn_length_app.
  - intros cl Hc Hab. unfold BalanceAt. hrun. rewrite Hc.
    destruct (CallContextInto OBig cl "eth_getBalance"
                [ParamAddress (HexToAddress account);
                 ParamString (toBlockNumArg a)] (node (world h)))
      as [[r err] n].
    destruct (CallContextInto OBig cl "eth_getBalance"
                [ParamAddress (HexToAddress account);
                 ParamString (toBlockNumArg b)] (node (world h)))
      as [[r' err'] n'].
    simpl. rewrite !skipn_length_app. intros H. injection H as H.
    revert H. now apply toBlockNumArg_distinct.
Qed.

(** X8.  [ChainID], [SuggestGasPrice], [NetworkID] and
    [TransactionInBlock] return exactly one of value and error.
    [Balance] and [BalanceAt] always return a number: when the call
    fails, the number the call left behind comes back next to the
    error. *)
Theorem value_and_error_of_the_number_queries
    (worm : Wormholes) (account : string) (blockNumber : bigInt)
    (blockHash : common_Hash) (index : Z) (h : Host) :
  value_xor_error (resultH (ChainID worm) h) = true
  /\ value_xor_error (resultH (SuggestGasPrice worm) h) = true
  /\ value_xor_error (resultH (NetworkID worm) h) = true
  /\ value_xor_error (resultH (TransactionInBlock worm blockHash index) h)
     = true
  /\ has_value (resultH (Balance worm account) h) = true
  /\ has_value (resultH (BalanceAt worm account blockNumber) h) = true
  /\ (forall (cl : Client) (v : Z) (e : error) (n : Node),
        c worm = Some cl ->
        CallContextInto OBig cl "eth_getBalance"
          [ParamAddress (HexToAddress account);
           ParamString (toBlockNumArg blockNumber)] (node (world h))
        = ((v, Some e), n) ->
        resultH (BalanceAt worm account blockNumber) h
        = Returns (Some v, Some e)).
Proof.
  unfold ChainID, SuggestGasPrice, NetworkID, TransactionInBlock, Balance,
    BalanceAt. hrun.
  destruct (c worm) as [cl|]; [|repeat split; auto; discriminate].
  repeat split.
  - now destruct (CallContextInto OBig cl "eth_chainId" [] _)
      as [[r [e|]] n].
  - now destruct (CallContextInto OBig cl "eth_gasPrice" [] _)
      as [[r [e|]] n].
  - destruct (CallContextInto OString cl "net_version" [] _)
      as [[ver [e|]] n]; [reflexivity|].
    now destruct (big_SetString_10 ver).
  - destruct (CallContextInto OTransaction cl _ _ _)
      as [[[j|] [e|]] n]; try reflexivity. simpl.
    destruct (rpcTransaction.tx j) as [t|]; [|reflexivity].
    destruct (RawSignatureValues t) as [[v [r|]] s0]; [|reflexivity].
    now destruct (rpcTransaction.From j), (rpcTransaction.BlockHash j).
  - now destruct (CallContextInto OBig cl "eth_getBalance" _ _)
      as [[r err] n].
  - now destruct (CallContextInto OBig cl "eth_getBalance" _ _)
      as [[r err] n].
  - intros cl' v e n Hc Hcall. injection Hc as <-. now rewrite Hcall.
Qed.

(** X9.  [GetActiveLivePool] and [QueryMinerProxy] turn no reply into
    [ethereum.NotFound]: a null result without error comes back as a nil
    result with a nil error.  [GetActiveLivePool] prints the list it got
    when the call succeeded, and nothing when it failed. *)
Theorem null_reply_is_returned_as_nil_nil
    (worm : Wormholes) (number : Z) (account : string) (h : Host)
    (cl : Client) :
  c worm = Some cl ->
  (forall n : Node,
      CallContextInto OActiveMinerList cl "eth_getActiveLivePool"
        [ParamBlockNumber (int64_of_uint64 number)] (node (world h))
      = ((None, None), n) ->
      nil_nil (resultH (GetActiveLivePool worm number) h) = true)
  /\ (forall n : Node,
         CallContextInto OMinerProxyList cl "eth_queryMinerProxy"
           [ParamString (Sprintf_0x_x number);
            ParamAddress (HexToAddress account)] (node (world h))
         = ((None, None), n) ->
         nil_nil (resultH (QueryMinerProxy worm number account) h) = true)
  /\ (forall al err n,
         CallContextInto OActiveMinerList cl "eth_getActiveLivePool"
           [ParamBlockNumber (int64_of_uint64 number)] (node (world h))
         = ((al, err), n) ->
         printed (GetActiveLivePool worm number) h
         = match err with
           | Some _ => []
           | None => [al]
           end).
Proof.
  intros Hc. unfold GetActiveLivePool, QueryMinerProxy. hrun. rewrite Hc.
  repeat split.
  - intros n Hcall. now rewrite Hcall.
  - intros n Hcall. now rewrite Hcall.
  - intros al err n Hcall. rewrite Hcall.
    destruct err as [e|]; simpl.
    + rewrite <- (app_nil_r (stdout h)) at 2. apply skipn_length_app.
    + apply skipn_length_app.
Qed.

(** X10.  [GetActiveLivePool] converts its [uint64] block number to the
    signed [rpc.BlockNumber]: a number below 2^63 is sent as it is, a
    number from 2^63 on is sent as that number minus 2^64, a negative
    block number. *)
Theorem GetActiveLivePool_block_number_wraps
    (worm : Wormholes) (number : Z) (h : Host) (cl : Client) :
  c worm = Some cl ->
  (0 <= number < 2 ^ 64)%Z ->
  sent (GetActiveLivePool worm number) h
  = [RpcCall OActiveMinerList "eth_getActiveLivePool"
       [ParamBlockNumber
          (if (number <? 2 ^ 63)%Z then number else (number - 2 ^ 64)%Z)]].
Proof.
  intros Hc Hn. rewrite <- (int64_of_uint64_wraps Hn).
  unfold GetActiveLivePool. hrun. rewrite Hc.
  destruct (CallContextInto _ _ _ _ _) as [[al [e|]] n]; simpl;
    apply skipn_length_app.
Qed.


End NodeProperties.

Section NodeProperties2.

Context {E : Externals} {X : NodeExternals}.

Ltac hrun :=
  unfold resultH, sent, printed, bindH, retH, panicH, fmt_Println,
    c_CallContextInto; simpl.

(** X12.  [SendTransaction] sends nothing when the transaction does not
    marshal: it returns that error and leaves the host as it was, with or
    without a connection.  Otherwise it sends one request,
    [eth_sendRawTransaction] with the [0x] hex text of the bytes, and
    returns the error of that call, nil when there is none. *)
Theorem SendTransaction_sends_hex_or_nothing
    (worm : Wormholes) (t : Transaction) (h : Host) :
  (forall data e,
      MarshalBinary t = (data, Some e) ->
      SendTransaction worm (Some t) h = (Returns (Some e), h))
  /\ (forall data cl,
         MarshalBinary t = (Some data, None) ->
         c worm = Some cl ->
         sent (SendTransaction worm (Some t)) h
         = [RpcCall ONothing "eth_sendRawTransaction"
              [ParamString (hexutil_Encode data)]]
         /\ resultH (SendTransaction worm (Some t)) h
            = Returns
                (snd (fst (CallContextInto ONothing cl
                             "eth_sendRawTransaction"
                             [ParamString (hexutil_Encode data)]
                             (node (world h)))))
         /\ prefix "0x" (hexutil_Encode data) = true
         /\ String.length (hexutil_Encode data)
            = (2 + 2 * List.length data)%nat).
Proof.
  split.
  - intros data e Hm. unfold SendTransaction. now rewrite Hm.
  - intros data cl Hm Hc.
    split; [|split; [|split]];
      [| |apply hexutil_Encode_prefix|apply hexutil_Encode_length];
      unfold SendTransaction; rewrite Hm; hrun; rewrite Hc;
      destruct (CallContextInto _ _ _ _ _) as [[r err] n]; simpl.
    + apply skipn_length_app.
    + reflexivity.
Qed.

(** X13.  [TransactionInBlock], on a connected client: a failed call gives
    its error and no transaction; a null reply gives [ethereum.NotFound];
    a transaction comes back only if its signature has an [r], and it is
    the server's transaction, with the sender stored in it when the reply
    names both sender and block hash; a reply without the transaction
    inside panics. *)
Theorem TransactionInBlock_contract
    (worm : Wormholes) (blockHash : common_Hash) (index : Z) (h : Host)
    (cl : Client) (json : option (rpcTransaction.t Transaction))
    (err : option error) (n : Node) :
  c worm = Some cl ->
  CallContextInto OTransaction cl "eth_getTransactionByBlockHashAndIndex"
    [ParamHash blockHash; ParamUint64 index] (node (world h))
  = ((json, err), n) ->
  (forall e, err = Some e ->
     resultH (TransactionInBlock worm blockHash index) h
     = Returns (None, Some e))
  /\ (err = None -> json = None ->
      resultH (TransactionInBlock worm blockHash index) h
      = Returns (None, Some NotFound))
  /\ (forall j, err = None -> json = Some j -> rpcTransaction.tx j = None ->
      resultH (TransactionInBlock worm blockHash index) h = Panics)
  /\ (forall t e',
        resultH (TransactionInBlock worm blockHash index) h
        = Returns (Some t, e') ->
        e' = None /\
        exists j t0 r,
          json = Some j /\ rpcTransaction.tx j = Some t0 /\
          snd (fst (RawSignatureValues t0)) = Some r /\
          t = match rpcTransaction.From j, rpcTransaction.BlockHash j with
              | Some from, Some hash => setSenderFromServer t0 from hash
              | _, _ => t0
              end).
Proof.
  intros Hc Hcall. unfold TransactionInBlock. hrun. rewrite Hc, Hcall.
  simpl. repeat split.
  - now intros e ->.
  - now intros -> ->.
  - intros j -> -> Htx. simpl. now rewrite Htx.
  - destruct err as [e|]; [discriminate|].
    destruct json as [j|]; [|discriminate]. simpl in H.
    destruct (rpcTransaction.tx j) as [t0|]; [|discriminate].
    destruct (RawSignatureValues t0) as [[v [r|]] s0]; [|discriminate].
    now destruct (rpcTransaction.From j), (rpcTransaction.BlockHash j);
      simpl in H; injection H as _ <-.
  - destruct err as [e|]; [discriminate|].
    destruct json as [j|]; [|discriminate]. simpl in H.
    destruct (rpcTransaction.tx j) as [t0|] eqn:Htx; [|discriminate].
    destruct (RawSignatureValues t0) as [[v [r|]] s0] eqn:Hr;
      [|discriminate].
    exists j, t0, r. rewrite Hr. simpl.
    repeat split; auto.
    now destruct (rpcTransaction.From j), (rpcTransaction.BlockHash j);
      simpl in H; injection H as <- _.
Qed.

(** X14.  [NetworkID] reads the node's [net_version] as a decimal number:
    the decimal text of any natural number gives that number; an empty
    text gives an error and no number; and no number is returned that
    the text does not parse to. *)
Theorem NetworkID_reads_decimal
    (worm : Wormholes) (h : Host) (cl : Client) (ver : string) (n : Node) :
  c worm = Some cl ->
  CallContextInto OString cl "net_version" [] (node (world h))
  = ((ver, None), n) ->
  (forall m : N,
      ver = DecimalString.NilZero.string_of_uint (N.to_uint m) ->
      resultH (NetworkID worm) h = Returns (Some (Z.of_N m), None))
  /\ (ver = EmptyString ->
      resultH (NetworkID worm) h
      = Returns
          (None, Some (fmt_Errorf "invalid net_version result %q" [ver])))
  /\ (forall v e,
         resultH (NetworkID worm) h = Returns (Some v, e) ->
         big_SetString_10 ver = Some v).
Proof.
  intros Hc Hcall. unfold NetworkID. hrun. rewrite Hc, Hcall. simpl.
  repeat split.
  - intros m ->. now rewrite big_SetString_10_print.
  - now intros ->.
  - intros v e. destruct (big_SetString_10 ver); simpl; intros H;
      now injection H as <- _.
Qed.

(** X15.  A wallet-only client, as [NewClient] builds it for an empty
    URL, has no connection: every query panics on it, sending and
    printing nothing.  [SendTransaction] panics on it too, unless the
    transaction fails to marshal first.  So does a query run straight
    after [NewClient] with an empty URL. *)
Theorem wallet_only_client_panics_on_queries
    (k account txHash : string) (number : Z) (blockNumber : bigInt)
    (blockHash : common_Hash) (address : common_Address) (t : Transaction)
    (s : World) (h : Host) :
  exists worm : Wormholes,
    NewClient k EmptyString s = (Returns worm, s)
    /\ TransactionReceipt worm txHash s = (Panics, s)
    /\ GetValidators worm number s = (Panics, s)
    /\ GetAccountInfo worm account number s = (Panics, s)
    /\ GetBlockBeneficiaryAddressByNumber worm number s = (Panics, s)
    /\ CloseConnect worm h = (Panics, h)
    /\ ChainID worm h = (Panics, h)
    /\ BlockNumber worm h = (Panics, h)
    /\ TransactionInBlock worm blockHash number h = (Panics, h)
    /\ PendingNonceAt worm address h = (Panics, h)
    /\ SuggestGasPrice worm h = (Panics, h)
    /\ NetworkID worm h = (Panics, h)
    /\ Balance worm account h = (Panics, h)
    /\ BalanceAt worm account blockNumber h = (Panics, h)
    /\ QueryMinerProxy worm number account h = (Panics, h)
    /\ GetActiveLivePool worm number h = (Panics, h)
    /\ SendTransaction worm (Some t) h
       = match MarshalBinary t with
         | (_, Some e) => (Returns (Some e), h)
         | (_, None) => (Panics, h)
         end
    /\ (w <~ onWorld (NewClient k EmptyString) ;; Balance w account) h
       = (Panics, h).
Proof.
  exists (mkWormholes (mkWallet k) None).
  repeat split.
  - unfold SendTransaction. now destruct (MarshalBinary t) as [d [e|]].
  - now destruct h.
Qed.

End NodeProperties2.

(** * More runs on the reference instances *)

Import DemoNode DemoRuns.

(** A buyer with an empty seller and a seller over the same four fields:
    one signature serves both. *)
Lemma equal_concatenation_same_signature_witness :
  signed (trace (sign wl buyer_request) world0)
  = signed (trace (sign wl seller1_request) world0)
  /\ exists sig : bytes,
       carries buyer_request buyer_payload
         (trace (sign wl buyer_request) world0) sig /\
       carries seller1_request seller1_payload
         (trace (sign wl seller1_request) world0) sig.
Proof.
  destruct (@equal_concatenation_same_signature externals
              wl buyer_request seller1_request world0 world0
              buyer_payload seller1_payload eq_refl) as [Hd Hs].
  split; [exact Hd|]. apply Hs; vm_compute; reflexivity.
Defined.

Lemma sign_and_marshal_errors_propagate_witness :
  (result (E:=Faulty.externals) (sign wl delegate_request) Faulty.world0
   = Returns (None, Some "hash is required to be exactly 32 bytes"%string)
   /\ marshalled
        (trace (E:=Faulty.externals) (sign wl delegate_request) Faulty.world0)
      = [])
  /\ result (E:=Faulty.externals)
       (sign wl Faulty.exchanger_request) Faulty.world0
     = Returns (None, Some "json: error calling MarshalJSON"%string).
Proof.
  split.
  - destruct (@sign_and_marshal_errors_propagate Faulty.externals
                wl delegate_request hello exchangerPriKey1 Faulty.world0
                (Some (list_byte_of_string exchangerPriKey1))
                "hash is required to be exactly 32 bytes"%string)
      as (Hs & _ & _).
    apply (Hs None); vm_compute; reflexivity.
  - destruct (@sign_and_marshal_errors_propagate Faulty.externals
                wl Faulty.exchanger_request hello exchangerPriKey1
                Faulty.world0
                (Some (list_byte_of_string exchangerPriKey1))
                "json: error calling MarshalJSON"%string)
      as (_ & _ & Hm).
    eapply Hm; vm_compute; reflexivity.
Defined.

Lemma toBlockNumArg_injective_witness :
  toBlockNumArg (Some 26%Z) <> toBlockNumArg (Some (-26)%Z)
  /\ toBlockNumArg None <> toBlockNumArg (Some (-1)%Z)
  /\ toBlockNumArg None = "latest"%string
  /\ toBlockNumArg (Some (-1)%Z) = "pending"%string
  /\ toBlockNumArg (Some 26%Z) = "0x1a"%string
  /\ toBlockNumArg (Some (-26)%Z) = "-0x1a"%string.
Proof.
  split; [|split; [|split; [|split; [|split]]]].
  - apply (toBlockNumArg_injective (Some 26%Z) (Some (-26)%Z) 0).
    discriminate.
  - apply (toBlockNumArg_injective None (Some (-1)%Z) 0). discriminate.
  - apply (toBlockNumArg_injective None None 0).
  - apply (toBlockNumArg_injective None None 0).
  - apply (toBlockNumArg_injective None None 26). lia.
  - apply (toBlockNumArg_injective None None (-26)). lia.
Defined.

Lemma BalanceAt_selects_the_block_witness :
  sent (BalanceAt worm account None) host0
  <> sent (BalanceAt worm account (Some 1655%Z)) host0.
Proof.
  destruct (@BalanceAt_selects_the_block externals node_externals
              worm account None (Some 1655%Z) host0)
    as (_ & _ & H).
  apply (H endpoint); [reflexivity|discriminate].
Defined.

(** The node of the reference instance has no pending state: [BalanceAt]
    at -1 returns a zero next to the error. *)
Lemma value_and_error_of_the_number_queries_witness :
  resultH (BalanceAt worm account (Some (-1)%Z)) host0
  = Returns (Some 0%Z, Some "pending state is not available"%string).
Proof.
  destruct (@value_and_error_of_the_number_queries externals node_externals
              worm account (Some (-1)%Z) block1 0%Z host0)
    as (_ & _ & _ & _ & _ & _ & H).
  apply (H endpoint 0%Z _ []); reflexivity.
Defined.

Lemma null_reply_is_returned_as_nil_nil_witness :
  nil_nil (resultH (GetActiveLivePool worm 1655%Z) host0) = true
  /\ nil_nil (resultH (QueryMinerProxy worm 1655%Z account) host0) = true.
Proof.
  destruct (@null_reply_is_returned_as_nil_nil externals node_externals
              worm 1655%Z account host0 endpoint eq_refl) as (Ha & Hq & _).
  split; [apply (Ha [])|apply (Hq [])]; reflexivity.
Defined.

Lemma GetActiveLivePool_block_number_wraps_witness :
  sent (GetActiveLivePool worm (2 ^ 64 - 1)%Z) host0
  = [RpcCall OActiveMinerList "eth_getActiveLivePool"
       [ParamBlockNumber (-1)%Z]].
Proof.
  apply (@GetActiveLivePool_block_number_wraps externals node_externals
           worm (2 ^ 64 - 1)%Z host0 endpoint); [reflexivity|lia].
Defined.


Lemma SendTransaction_sends_hex_or_nothing_witness :
  SendTransaction worm (Some tx_empty) host0
  = (Returns (Some "rlp: empty transaction"%string), host0)
  /\ sent (SendTransaction worm (Some tx3)) host0
     = [RpcCall ONothing "eth_sendRawTransaction" [ParamString "0x010203"]].
Proof.
  split.
  - destruct (@SendTransaction_sends_hex_or_nothing externals node_externals
                worm tx_empty host0) as [H _].
    apply (H None). reflexivity.
  - destruct (@SendTransaction_sends_hex_or_nothing externals node_externals
                worm tx3 host0) as [_ H].
    destruct (H [x01; x02; x03] endpoint eq_refl eq_refl) as [Hs _].
    exact Hs.
Defined.

(** The first transaction of a mined block, and of an unknown one. *)
Lemma TransactionInBlock_contract_witness :
  resultH (TransactionInBlock worm block1 1%Z) host1
  = Returns (None, Some NotFound)
  /\ exists j t0 r,
       Some (rpcTransaction.mk (Some (block1, Some 7%Z)) None
               (Some block1) (Some block1)) = Some j /\
       rpcTransaction.tx j = Some t0 /\
       snd (fst (RawSignatureValues t0)) = Some r /\
       (block1, Some 7%Z)
       = match rpcTransaction.From j, rpcTransaction.BlockHash j with
         | Some from, Some hash => setSenderFromServer t0 from hash
         | _, _ => t0
         end.
Proof.
  split.
  - destruct (@TransactionInBlock_contract externals node_externals
                worm block1 1%Z host1 endpoint None None [block1]
                eq_refl eq_refl) as (_ & H & _).
    now apply H.
  - destruct (@TransactionInBlock_contract externals node_externals
                worm block1 0%Z host1 endpoint
                (Some (rpcTransaction.mk (Some (block1, Some 7%Z)) None
                         (Some block1) (Some block1)))
                None [block1] eq_refl eq_refl)
      as (_ & _ & _ & H).
    destruct (H (block1, Some 7%Z) None eq_refl) as [_ Hex]. exact Hex.
Defined.

Lemma NetworkID_reads_decimal_witness :
  resultH (NetworkID worm) host0 = Returns (Some 51888%Z, None).
Proof.
  destruct (@NetworkID_reads_decimal externals node_externals
              worm host0 endpoint "51888"%string [] eq_refl eq_refl)
    as [H _].
  apply (H 51888%N). reflexivity.
Defined.

(** * The payload as JSON text *)

Lemma json_read_ascii (short : bool) (b : byte) (t : bytes) :
  (Byte.to_N b <? 128)%N = true ->
  json_read_string (escape_ascii short b ++ t)
  = push [b] (json_read_string t).
Proof.
  intros H.
  destruct short; destruct b;
    first [reflexivity | vm_compute in H; discriminate H].
Qed.

Lemma json_read_high (b : byte) (t : bytes) :
  (Byte.to_N b <? 128)%N = false ->
  json_read_string (b :: t) = push [b] (json_read_string t).
Proof.
  intros H.
  destruct b; first [reflexivity | vm_compute in H; discriminate H].
Qed.

Lemma json_read_replacement (t : bytes) :
  json_read_string (replacement ++ t)
  = push replacement_rune (json_read_string t).
Proof. reflexivity. Qed.

Lemma json_read_2028 (t : bytes) :
  json_read_string ([x5c; x75; x32; x30; x32; x38] ++ t)
  = push [xe2; x80; xa8] (json_read_string t).
Proof. reflexivity. Qed.

Lemma json_read_2029 (t : bytes) :
  json_read_string ([x5c; x75; x32; x30; x32; x39] ++ t)
  = push [xe2; x80; xa9] (json_read_string t).
Proof. reflexivity. Qed.

Lemma in_range_high (lo hi : N) (b : byte) :
  (128 <= lo)%N -> in_range lo hi b = true ->
  (Byte.to_N b <? 128)%N = false.
Proof.
  unfold in_range. intros Hlo H.
  apply andb_true_iff in H. destruct H as [H _].
  apply N.leb_le in H. apply N.ltb_ge. lia.
Qed.

Lemma cont_high (b : byte) :
  cont b = true -> (Byte.to_N b <? 128)%N = false.
Proof. apply in_range_high. lia. Qed.

Lemma rune2_high (b0 b1 : byte) :
  rune2 b0 b1 = true -> (Byte.to_N b1 <? 128)%N = false.
Proof.
  unfold rune2. intros H. apply andb_true_iff in H.
  now apply cont_high.
Qed.

Lemma rune3_high (b0 b1 b2 : byte) :
  rune3 b0 b1 b2 = true ->
  (Byte.to_N b1 <? 128)%N = false /\ (Byte.to_N b2 <? 128)%N = false.
Proof.
  unfold rune3. intros H. apply andb_true_iff in H. destruct H as [H H2].
  split; [|now apply cont_high].
  repeat (apply orb_true_iff in H; destruct H as [H|H]);
    apply andb_true_iff in H; destruct H as [_ H];
    revert H; apply in_range_high; lia.
Qed.

Lemma rune4_high (b0 b1 b2 b3 : byte) :
  rune4 b0 b1 b2 b3 = true ->
  (Byte.to_N b1 <? 128)%N = false /\ (Byte.to_N b2 <? 128)%N = false
  /\ (Byte.to_N b3 <? 128)%N = false.
Proof.
  unfold rune4. intros H.
  apply andb_true_iff in H. destruct H as [H H3].
  apply andb_true_iff in H. destruct H as [H H2].
  split; [|split; now apply cont_high].
  repeat (apply orb_true_iff in H; destruct H as [H|H]);
    apply andb_true_iff in H; destruct H as [_ H];
    revert H; apply in_range_high; lia.
Qed.

Lemma json_read_rune3 (b0 b1 b2 : byte) (t : bytes) :
  (Byte.to_N b0 <? 128)%N = false -> rune3 b0 b1 b2 = true ->
  json_read_string (escape_rune3 b0 b1 b2 ++ t)
  = push [b0; b1; b2] (json_read_string t).
Proof.
  intros Hb0 H3. destruct (rune3_high _ _ _ H3) as [Hb1 Hb2].
  unfold escape_rune3.
  destruct (Byte.eqb b0 xe2 && Byte.eqb b1 x80 && Byte.eqb b2 xa8) eqn:Ha.
  { apply andb_true_iff in Ha. destruct Ha as [Ha Ha2].
    apply andb_true_iff in Ha. destruct Ha as [Ha0 Ha1].
    apply Byte.byte_dec_bl in Ha0, Ha1, Ha2. subst.
    apply json_read_2028. }
  destruct (Byte.eqb b0 xe2 && Byte.eqb b1 x80 && Byte.eqb b2 xa9) eqn:Hc.
  { apply andb_true_iff in Hc. destruct Hc as [Hc Hc2].
    apply andb_true_iff in Hc. destruct Hc as [Hc0 Hc1].
    apply Byte.byte_dec_bl in Hc0, Hc1, Hc2. subst.
    apply json_read_2029. }
  change ([b0; b1; b2] ++ t) with (b0 :: b1 :: b2 :: t).
  rewrite !json_read_high by assumption.
  now destruct (json_read_string t) as [[v rest]|].
Qed.

(** Reading what the encoder wrote for a string gives the string back,
    repaired, and stops after the closing quote. *)
Lemma json_read_escape (short : bool) (rest : bytes) :
  forall (n : nat) (s : bytes),
    (List.length s <= n)%nat ->
    json_read_string (json_escape short s ++ x22 :: rest)
    = Some (utf8_repair s, rest).
Proof.
  assert (Hbad : forall r,
             json_read_string (json_escape short r ++ x22 :: rest)
             = Some (utf8_repair r, rest) ->
             json_read_string
               ((replacement ++ json_escape short r) ++ x22 :: rest)
             = Some (replacement_rune ++ utf8_repair r, rest)).
  { intros r H.
    rewrite <- app_assoc, json_read_replacement, H. reflexivity. }
  induction n as [|n IH]; intros s Hlen.
  { destruct s; [reflexivity|simpl in Hlen; lia]. }
  destruct s as [|b0 r]; [reflexivity|].
  simpl in Hlen.
  assert (Hr : json_read_string (json_escape short r ++ x22 :: rest)
               = Some (utf8_repair r, rest)) by (apply IH; lia).
  cbn [json_escape utf8_repair].
  destruct (Byte.to_N b0 <? 128)%N eqn:Hb0.
  { rewrite <- app_assoc, json_read_ascii, Hr by exact Hb0. reflexivity. }
  destruct r as [|b1 r1]; [now apply Hbad|]. simpl in Hlen.
  destruct (rune2 b0 b1) eqn:H2.
  { cbn [app]. rewrite json_read_high by exact Hb0.
    rewrite json_read_high by (now apply (rune2_high b0)).
    rewrite IH by lia. reflexivity. }
  destruct r1 as [|b2 r2]; [now apply Hbad|]. simpl in Hlen.
  destruct (rune3 b0 b1 b2) eqn:H3.
  { rewrite <- app_assoc, json_read_rune3, IH by (auto; lia). reflexivity. }
  destruct r2 as [|b3 r3]; [now apply Hbad|]. simpl in Hlen.
  destruct (rune4 b0 b1 b2 b3) eqn:H4; [|now apply Hbad].
  destruct (rune4_high _ _ _ _ H4) as (Hb1 & Hb2 & Hb3).
  cbn [app]. rewrite !json_read_high by assumption.
  rewrite IH by lia. reflexivity.
Qed.

(** A well-formed UTF-8 string needs no repair. *)
Lemma utf8_repair_valid :
  forall (n : nat) (s : bytes),
    (List.length s <= n)%nat -> utf8_valid s = true -> utf8_repair s = s.
Proof.
  induction n as [|n IH]; intros s Hlen Hv.
  { destruct s; [reflexivity|simpl in Hlen; lia]. }
  destruct s as [|b0 r]; [reflexivity|].
  cbn [utf8_valid utf8_repair] in *. simpl in Hlen.
  destruct (Byte.to_N b0 <? 128)%N.
  { rewrite IH by (auto; lia). reflexivity. }
  destruct r as [|b1 r1]; [discriminate Hv|]. simpl in Hlen.
  destruct (rune2 b0 b1).
  { rewrite IH by (auto; lia). reflexivity. }
  destruct r1 as [|b2 r2]; [discriminate Hv|]. simpl in Hlen.
  destruct (rune3 b0 b1 b2).
  { rewrite IH by (auto; lia). reflexivity. }
  destruct r2 as [|b3 r3]; [discriminate Hv|]. simpl in Hlen.
  destruct (rune4 b0 b1 b2 b3); [|discriminate Hv].
  rewrite IH by (auto; lia). reflexivity.
Qed.

Lemma read_back_valid (s : string) :
  utf8_valid (list_byte_of_string s) = true ->
  read_back s = list_byte_of_string s.
Proof.
  intros H. unfold read_back.
  apply utf8_repair_valid with (n := List.length (list_byte_of_string s));
    [apply le_n|exact H].
Qed.

Lemma htmlSafe_low (b : byte) :
  htmlSafe b = true -> (Byte.to_N b <? 128)%N = true.
Proof.
  unfold htmlSafe, in_range. intros H.
  apply andb_true_iff in H. destruct H as [H _].
  apply andb_true_iff in H. destruct H as [_ H].
  apply N.leb_le in H. apply N.ltb_lt. lia.
Qed.

(** A text of safe bytes is well formed, and written as it is. *)
Lemma htmlSafe_text (short : bool) (s : bytes) :
  forallb htmlSafe s = true ->
  json_escape short s = s /\ utf8_valid s = true.
Proof.
  induction s as [|b r IH]; [split; reflexivity|]. simpl forallb. intros H.
  apply andb_true_iff in H. destruct H as [Hb Hr].
  destruct (IH Hr) as [IH1 IH2].
  cbn [json_escape utf8_valid]. rewrite (htmlSafe_low _ Hb).
  unfold escape_ascii. rewrite Hb, IH1. split; [reflexivity|exact IH2].
Qed.

Lemma hex_digits_safe (x : byte) :
  htmlSafe (byte_of_ascii (hexdigit (Byte.to_N x / 16))) = true
  /\ htmlSafe (byte_of_ascii (hexdigit (Byte.to_N x mod 16))) = true.
Proof. destruct x; split; reflexivity. Qed.

Lemma hexutil_Encode_safe (b : bytes) :
  forallb htmlSafe (list_byte_of_string (hexutil_Encode b)) = true.
Proof.
  unfold hexutil_Encode. rewrite list_byte_of_string_app.
  rewrite forallb_app. apply andb_true_iff. split; [reflexivity|].
  induction b as [|x r IH]; [reflexivity|].
  destruct (hex_digits_safe x) as [H1 H2].
  change (list_byte_of_string (hex_EncodeToString (x :: r)))
    with (byte_of_ascii (hexdigit (Byte.to_N x / 16))
          :: byte_of_ascii (hexdigit (Byte.to_N x mod 16))
          :: list_byte_of_string (hex_EncodeToString r)).
  simpl forallb. now rewrite H1, H2, IH.
Qed.

Lemma json_read_json_string (short : bool) (s : string) (rest : bytes) :
  json_read_string (json_escape short (list_byte_of_string s) ++ x22 :: rest)
  = Some (read_back s, rest).
Proof.
  apply json_read_escape with (n := List.length (list_byte_of_string s)).
  apply le_n.
Qed.

Lemma json_read_member (short : bool) (k v : string) (n : nat) (t : bytes) :
  json_read_members (S n)
    (json_string short k ++ [x3a] ++ json_string short v ++ t)
  = match t with
    | [] => None
    | d :: t2 =>
        if Byte.eqb d x7d then
          match t2 with
          | [] => Some [(read_back k, read_back v)]
          | _ :: _ => None
          end
        else if Byte.eqb d x2c
        then option_map (cons (read_back k, read_back v))
               (json_read_members n t2)
        else None
    end.
Proof.
  unfold json_string. cbn [app json_read_members Byte.eqb].
  change (Byte.eqb x22 x22) with true. cbv iota.
  rewrite <- app_assoc. cbn [app].
  rewrite json_read_json_string.
  change (Byte.eqb x3a x3a && Byte.eqb x22 x22) with true. cbv iota.
  rewrite <- app_assoc. cbn [app].
  rewrite json_read_json_string. reflexivity.
Qed.

Lemma json_read_pairs (short : bool) :
  forall (kvs : list (string * string)) (n : nat),
    kvs <> [] -> (List.length kvs <= n)%nat ->
    json_read_members n (json_pairs short kvs ++ [x7d])
    = Some (map (fun kv => (read_back (fst kv), read_back (snd kv))) kvs).
Proof.
  induction kvs as [|[k v] rest IH]; intros n Hne Hn; [congruence|].
  destruct n as [|n]; [simpl in Hn; lia|]. simpl in Hn.
  destruct rest as [|kv2 rest].
  - cbn [json_pairs]. rewrite <- !app_assoc.
    rewrite json_read_member. reflexivity.
  - change (json_pairs short ((k, v) :: kv2 :: rest))
      with (json_string short k ++ [x3a] ++ json_string short v ++ [x2c]
              ++ json_pairs short (kv2 :: rest)).
    rewrite <- !app_assoc. rewrite json_read_member.
    cbn [app]. change (Byte.eqb x2c x7d) with false.
    change (Byte.eqb x2c x2c) with true. cbv iota.
    rewrite IH by (try discriminate; simpl in *; lia). reflexivity.
Qed.

Lemma json_pairs_length (short : bool) (kvs : list (string * string)) :
  (List.length kvs <= List.length (json_pairs short kvs))%nat.
Proof.
  induction kvs as [|[k v] rest IH]; [simpl; lia|].
  destruct rest as [|kv2 rest].
  - cbn [json_pairs]. unfold json_string. simpl. lia.
  - change (json_pairs short ((k, v) :: kv2 :: rest))
      with (json_string short k ++ [x3a] ++ json_string short v ++ [x2c]
              ++ json_pairs short (kv2 :: rest)).
    rewrite !length_app. simpl List.length in *. lia.
Qed.

(** Reading the object the encoder wrote gives its keys and values, in
    order, each as [read_back] has it. *)
Lemma json_read_json_object (short : bool) (kvs : list (string * string)) :
  json_read_object (json_object short kvs)
  = Some (map (fun kv => (read_back (fst kv), read_back (snd kv))) kvs).
Proof.
  destruct kvs as [|[k v] rest]; [reflexivity|].
  assert (Hp : exists t, json_pairs short ((k, v) :: rest) = x22 :: t).
  { destruct rest; cbn [json_pairs]; unfold json_string; cbn [app];
      eexists; reflexivity. }
  destruct Hp as [t Ht].
  pose proof (json_pairs_length short ((k, v) :: rest)) as Hl.
  unfold json_object, json_read_object. rewrite Ht in *. cbn [app].
  change (Byte.eqb x7b x7b) with true.
  change (Byte.eqb x22 x7d) with false. cbv iota.
  change (x22 :: t ++ [x7d]) with ((x22 :: t) ++ [x7d]). rewrite <- Ht.
  apply json_read_pairs; [discriminate|].
  rewrite length_app. simpl List.length in *. lia.
Qed.

Lemma read_back_signature (sig : bytes) :
  read_back (hexutil_Encode sig) = list_byte_of_string (hexutil_Encode sig).
Proof.
  apply read_back_valid.
  apply (htmlSafe_text false), hexutil_Encode_safe.
Qed.

Lemma Forall_read_back (l : list string) :
  Forall (fun f => utf8_valid (list_byte_of_string f) = true) l ->
  map read_back l = map list_byte_of_string l.
Proof.
  induction 1 as [|f l Hf _ IH]; [reflexivity|].
  simpl. now rewrite IH, read_back_valid.
Qed.

Section PayloadText.

Context {E : Externals}.

Lemma payload_members (tag : string -> string) (r : SignRequest)
    (st : string) (v : any) :
  authorization r st = Some v ->
  map (fun kv => (read_back (fst kv), read_back (snd kv)))
    (map (fun kv => (tag (fst kv), snd kv)) (entries v))
  = combine (map (fun n => read_back (tag n))
               (declared_names (role r) ++ ["Sig"%string]))
      (map read_back (fields r) ++ [read_back st]).
Proof.
  intros H. rewrite (authorization_entries _ _ H).
  destruct r; try discriminate H; reflexivity.
Qed.

(** With [encoding/json] as the encoder, what [json.Marshal] returns for
    the struct of a role reads back as the declared keys with the caller's
    strings and, last, [Sig] with the text of the signature. *)
Lemma marshal_reads_back
    (short : bool) (tag : string -> string -> string)
    (r : SignRequest) (sig : bytes) (v : any) (o : option bytes) :
  Marshal_is_encoding_json short tag ->
  authorization r (hexutil_Encode sig) = Some v ->
  json_Marshal v = (o, None) ->
  exists payload : bytes,
    o = Some payload /\
    json_read_object payload
    = Some (combine
              (map (fun n => read_back (tag (struct_name v) n))
                 (declared_names (role r) ++ ["Sig"%string]))
              (map read_back (fields r)
                 ++ [list_byte_of_string (hexutil_Encode sig)])).
Proof.
  intros HM Ha Hj. rewrite HM in Hj. injection Hj as <-.
  eexists. split; [reflexivity|].
  unfold encoding_json_Marshal. rewrite json_read_json_object.
  rewrite (payload_members (tag (struct_name v)) r _ Ha).
  now rewrite read_back_signature.
Qed.

(** C5, as the code has it.  With [encoding/json] as the encoder, a
    successful [SignBuyer], [SignSeller1], [SignSeller2] or
    [SignExchanger] returns the text of one JSON object.  Read back, the
    object has one member for each declared field, in declared order and
    under the key the struct gives that field, and then the member of
    [Sig].  The value of a field is the caller's string with every byte
    that starts no well-formed UTF-8 sequence replaced by U+FFFD: the
    caller's string byte for byte when it is well-formed UTF-8.  The value
    of [Sig] is the [0x]-prefixed hex text, 132 characters, of the 65-byte
    signature: what [crypto.Sign] made of the digest of the message, with
    27 added to its byte 64. *)
Theorem role_payload_reads_back
    (short : bool) (tag : string -> string -> string)
    (w : Wallet) (r : SignRequest) (s : World) (o : option bytes) :
  Marshal_is_encoding_json short tag ->
  role r <> Delegate ->
  sign_contract (SignHash (message r)) (fst (HexToECDSA (priKey w))) ->
  result (sign w r) s = Returns (o, None) ->
  exists (key : option PrivateKey) (raw sig : bytes) (v : any)
         (payload : bytes),
    HexToECDSA (priKey w) = (key, None) /\
    crypto_Sign (SignHash (message r)) key = (Some raw, None) /\
    recovery_plus_27 raw sig /\
    List.length sig = 65%nat /\
    authorization r (hexutil_Encode sig) = Some v /\
    marshalled (trace (sign w r) s) = [v] /\
    o = Some payload /\
    json_read_object payload
    = Some (combine
              (map (fun n => read_back (tag (struct_name v) n))
                 (declared_names (role r) ++ ["Sig"%string]))
              (map read_back (fields r)
                 ++ [list_byte_of_string (hexutil_Encode sig)])) /\
    (Forall (fun f => utf8_valid (list_byte_of_string f) = true) (fields r) ->
     json_read_object payload
     = Some (combine
               (map (fun n => read_back (tag (struct_name v) n))
                  (declared_names (role r) ++ ["Sig"%string]))
               (map list_byte_of_string
                  (fields r ++ [hexutil_Encode sig])))) /\
    (forall f : string,
        In f (fields r) -> utf8_valid (list_byte_of_string f) = true ->
        read_back f = list_byte_of_string f) /\
    prefix "0x" (hexutil_Encode sig) = true /\
    String.length (hexutil_Encode sig) = 132%nat.
Proof.
  intros HM Hrole Hc Hres.
  destruct (sign_success _ _ _ Hres)
    as (key & raw & sig & Hk & Hs & Hrec & Hcar).
  rewrite Hk in Hc. destruct (Hc _ Hs) as (rs & v0 & Hraw & Hrs & _).
  injection Hraw as ->.
  assert (H65 : List.length sig = 65%nat).
  { destruct Hrec as [Hlen _]. rewrite Hlen, length_app, Hrs. reflexivity. }
  unfold carries in Hcar.
  destruct (authorization r (hexutil_Encode sig)) as [v|] eqn:Ha;
    [|now apply authorization_role in Ha].
  destruct Hcar as [Hm Hj].
  destruct (@marshal_reads_back short tag r sig v o HM Ha Hj)
    as (payload & -> & Hread).
  exists key, (rs ++ [v0]), sig, v, payload.
  split; [exact Hk|]. split; [exact Hs|]. split; [exact Hrec|].
  split; [exact H65|]. split; [exact Ha|]. split; [exact Hm|].
  split; [reflexivity|]. split; [exact Hread|]. split.
  - intros Hv.
    rewrite Hread, (map_app list_byte_of_string), (Forall_read_back Hv).
    reflexivity.
  - split; [intros f _; apply read_back_valid|].
    split; [apply hexutil_Encode_prefix|].
    now rewrite hexutil_Encode_length, H65.
Qed.

(** C6, as the code has it.  With [sig] the signature of [crypto.Sign]
    on the digest of the message, 27 added to its byte 64: the four roles
    with a struct return its marshalled form, keyed by the declared field
    names plus [Sig], the hex text of [sig], and with [encoding/json] as
    the encoder that form reads back as one object with these keys, the
    caller's strings and the text of [sig]; [SignDelegate] marshals
    nothing and returns the [0x]-prefixed hex text of [sig] alone. *)
Theorem delegate_returns_bare_signature
    (w : Wallet) (r : SignRequest) (s : World) (o : option bytes) :
  result (sign w r) s = Returns (o, None) ->
  exists (key : option PrivateKey) (raw sig : bytes),
    HexToECDSA (priKey w) = (key, None) /\
    crypto_Sign (SignHash (message r)) key = (Some raw, None) /\
    recovery_plus_27 raw sig /\
    match role r with
    | Delegate =>
        marshalled (trace (sign w r) s) = [] /\
        o = Some (list_byte_of_string (hexutil_Encode sig))
    | _ =>
        exists v : any,
          authorization r (hexutil_Encode sig) = Some v /\
          marshalled (trace (sign w r) s) = [v] /\
          json_Marshal v = (o, None) /\
          map fst (entries v) = declared_names (role r) ++ ["Sig"%string] /\
          map snd (entries v) = fields r ++ [hexutil_Encode sig] /\
          forall (short : bool) (tag : string -> string -> string),
            Marshal_is_encoding_json short tag ->
            exists payload : bytes,
              o = Some payload /\
              json_read_object payload
              = Some (combine
                        (map (fun n => read_back (tag (struct_name v) n))
                           (declared_names (role r) ++ ["Sig"%string]))
                        (map read_back (fields r)
                           ++ [list_byte_of_string (hexutil_Encode sig)]))
    end.
Proof.
  intros Hres.
  destruct (sign_success _ _ _ Hres)
    as (key & raw & sig & Hk & Hs & Hrec & Hcar).
  exists key, raw, sig.
  split; [exact Hk|split; [exact Hs|split; [exact Hrec|]]].
  unfold carries in Hcar.
  destruct (authorization r (hexutil_Encode sig)) as [v|] eqn:Ha.
  - destruct Hcar as [Hm Hj].
    assert (Hv : exists v' : any,
               Some v = Some v' /\
               marshalled (trace (sign w r) s) = [v'] /\
               json_Marshal v' = (o, None) /\
               map fst (entries v')
               = declared_names (role r) ++ ["Sig"%string] /\
               map snd (entries v') = fields r ++ [hexutil_Encode sig] /\
               forall (short : bool) (tag : string -> string -> string),
                 Marshal_is_encoding_json short tag ->
                 exists payload : bytes,
                   o = Some payload /\
                   json_read_object payload
                   = Some (combine
                             (map (fun n =>
                                     read_back (tag (struct_name v') n))
                                (declared_names (role r) ++ ["Sig"%string]))
                             (map read_back (fields r)
                                ++ [list_byte_of_string
                                      (hexutil_Encode sig)]))).
    { exists v. split; [reflexivity|]. split; [exact Hm|].
      split; [exact Hj|].
      rewrite (authorization_entries _ _ Ha).
      split; [|split].
      - destruct r; try discriminate Ha; reflexivity.
      - destruct r; try discriminate Ha; reflexivity.
      - intros short tag HM.
        exact (@marshal_reads_back short tag r sig v o HM Ha Hj). }
    destruct r; try discriminate Ha; exact Hv.
  - destruct r; try discriminate Ha. exact Hcar.
Qed.

End PayloadText.

Lemma go_sign_contract (d : bytes) (k : option bytes) :
  sign_contract (E:=GoJSON.externals) d k.
Proof.
  unfold sign_contract. simpl. unfold sign_det. intros sg.
  destruct k as [k|]; [|discriminate].
  destruct (List.length d =? 32)%nat eqn:Hd; [|discriminate].
  apply Nat.eqb_eq in Hd. intros H. injection H as <-.
  eexists (d ++ pad32 k), _. rewrite <- app_assoc.
  split; [reflexivity|split].
  - unfold pad32. rewrite length_app, length_firstn, length_app, repeat_length.
    lia.
  - destruct (N.odd (Byte.to_N (hd x00 d))); auto.
Qed.

(** C5 fails on the code: an amount that is the one byte 0xff, which is no
    UTF-8, is written as the escape of U+FFFD; the [Amount] of the payload
    reads back as the three bytes of U+FFFD, not as the caller's byte. *)
Lemma invalid_utf8_amount_is_not_preserved :
  result (E:=GoJSON.externals) (sign Demo.wl GoJSON.request_ff) GoJSON.world0
  = Returns (Some GoJSON.payload_ff, None)
  /\ fields GoJSON.request_ff
     = [GoJSON.amount_ff; Demo.nft1; Demo.exchangeAddress; "0x6000";
        EmptyString]%string
  /\ json_read_object GoJSON.payload_ff
     = Some (combine
               (map list_byte_of_string
                  ["Amount"; "NFTAddress"; "Exchanger"; "BlockNumber";
                   "Seller"; "Sig"]%string)
               (replacement_rune
                :: map list_byte_of_string
                     [Demo.nft1; Demo.exchangeAddress; "0x6000"; EmptyString;
                      GoJSON.signature_ff]%string))
  /\ replacement_rune <> list_byte_of_string GoJSON.amount_ff.
Proof.
  split; [vm_compute; reflexivity|].
  split; [reflexivity|].
  split; [vm_compute; reflexivity|].
  vm_compute. discriminate.
Qed.

Lemma role_payload_reads_back_witness :
  exists (key : option bytes) (raw sig : bytes) (v : any) (payload : bytes),
    @HexToECDSA GoJSON.externals (priKey Demo.wl) = (key, None) /\
    @crypto_Sign GoJSON.externals
      (@SignHash GoJSON.externals (message Demo.buyer_request)) key
    = (Some raw, None) /\
    recovery_plus_27 raw sig /\
    List.length sig = 65%nat /\
    authorization Demo.buyer_request (hexutil_Encode sig) = Some v /\
    marshalled (E:=GoJSON.externals)
      (trace (sign Demo.wl Demo.buyer_request) GoJSON.world0)
    = [v] /\
    GoJSON.buyer_payload = Some payload /\
    json_read_object payload
    = Some (combine
              (map (fun n => read_back (GoJSON.field_name (struct_name v) n))
                 (declared_names (role Demo.buyer_request)
                    ++ ["Sig"%string]))
              (map read_back (fields Demo.buyer_request)
                 ++ [list_byte_of_string (hexutil_Encode sig)])) /\
    (Forall (fun f => utf8_valid (list_byte_of_string f) = true)
       (fields Demo.buyer_request) ->
     json_read_object payload
     = Some (combine
               (map (fun n => read_back (GoJSON.field_name (struct_name v) n))
                  (declared_names (role Demo.buyer_request)
                     ++ ["Sig"%string]))
               (map list_byte_of_string
                  (fields Demo.buyer_request ++ [hexutil_Encode sig])))) /\
    (forall f : string,
        In f (fields Demo.buyer_request) ->
        utf8_valid (list_byte_of_string f) = true ->
        read_back f = list_byte_of_string f) /\
    prefix "0x" (hexutil_Encode sig) = true /\
    String.length (hexutil_Encode sig) = 132%nat.
Proof.
  apply (@role_payload_reads_back GoJSON.externals false GoJSON.field_name
           Demo.wl Demo.buyer_request GoJSON.world0 GoJSON.buyer_payload).
  - intros v. reflexivity.
  - discriminate.
  - apply go_sign_contract.
  - vm_compute. reflexivity.
Defined.

Lemma delegate_returns_bare_signature_witness :
  exists (key : option PrivateKey) (raw sig : bytes),
    HexToECDSA (priKey wl) = (key, None) /\
    crypto_Sign (SignHash (message delegate_request)) key
    = (Some raw, None) /\
    recovery_plus_27 raw sig /\
    marshalled (trace (sign wl delegate_request) world0) = [] /\
    Some (list_byte_of_string delegate_text)
    = Some (list_byte_of_string (hexutil_Encode sig)).
Proof.
  apply (delegate_returns_bare_signature wl delegate_request world0).
  vm_compute. reflexivity.
Defined.
